(** * Books scraper: a shallow embedding of [scraper.py]

    The development follows the source file top-down: the fragment of
    BeautifulSoup and of [requests] that the scraper calls, Python values,
    a small monad for output, the accumulating list and exceptions, then
    [get_book_data] and [scrape_books], and finally the properties. *)

From Stdlib Require Import ZArith Ascii String.
From stdpp Require Import base option list strings gmap pretty.

Local Open Scope string_scope.
Local Open Scope list_scope.
Local Open Scope Z_scope.

(** ** Python strings

    A [str] is held as the bytes of its UTF-8 encoding: equality,
    concatenation and formatting are the same on both, and the whitespace
    characters [str.strip] removes are one, two or three bytes long. *)

Module Str.

(** Removal of leading characters, and the test for one, for a class of
    characters given by its one-, two- and three-byte members. *)
Section Leading.

Variable p1 : ascii -> bool.
Variable p2 : ascii -> ascii -> bool.
Variable p3 : ascii -> ascii -> ascii -> bool.

Definition leads (s : string) : bool :=
  match s with
  | EmptyString => false
  | String a s1 =>
      p1 a ||
      match s1 with
      | EmptyString => false
      | String b s2 =>
          p2 a b ||
          match s2 with
          | EmptyString => false
          | String c _ => p3 a b c
          end
      end
  end.

Fixpoint drop_leading (s : string) : string :=
  match s with
  | EmptyString => EmptyString
  | String a s1 =>
      if p1 a then drop_leading s1
      else
        match s1 with
        | EmptyString => s
        | String b s2 =>
            if p2 a b then drop_leading s2
            else
              match s2 with
              | EmptyString => s
              | String c s3 => if p3 a b c then drop_leading s3 else s
              end
        end
  end.

End Leading.

Definition byte_is (a : ascii) (n : N) : bool := (N_of_ascii a =? n)%N.

Definition byte_in (a : ascii) (lo hi : N) : bool :=
  ((lo <=? N_of_ascii a)%N && (N_of_ascii a <=? hi)%N).

(** The characters for which [str.isspace] holds, by encoded length.
    One byte: U+0009..U+000D, U+001C..U+001F and U+0020. *)
Definition isspace1 (a : ascii) : bool :=
  byte_in a 9 13 || byte_in a 28 32.

(** Two bytes: U+0085 (C2 85) and U+00A0 (C2 A0). *)
Definition isspace2 (a b : ascii) : bool :=
  byte_is a 194 && (byte_is b 133 || byte_is b 160).

(** Three bytes: U+1680 (E1 9A 80), U+2000..U+200A (E2 80 80..8A),
    U+2028, U+2029, U+202F (E2 80 A8, A9, AF), U+205F (E2 81 9F) and
    U+3000 (E3 80 80). *)
Definition isspace3 (a b c : ascii) : bool :=
  (byte_is a 225 && byte_is b 154 && byte_is c 128) ||
  (byte_is a 226 && byte_is b 128 &&
     (byte_in c 128 138 || byte_is c 168 || byte_is c 169 || byte_is c 175)) ||
  (byte_is a 226 && byte_is b 129 && byte_is c 159) ||
  (byte_is a 227 && byte_is b 128 && byte_is c 128).

(** [s[0].isspace()], false on the empty string. *)
Definition starts_with_space : string -> bool :=
  leads isspace1 isspace2 isspace3.

(** [s[-1].isspace()], read on the reversed bytes. *)
Definition ends_with_space (s : string) : bool :=
  leads isspace1 (fun b a => isspace2 a b) (fun c b a => isspace3 a b c)
        (String.rev s).

(** [s.lstrip()] *)
Definition lstrip : string -> string :=
  drop_leading isspace1 isspace2 isspace3.

(** [s.rstrip()] *)
Definition rstrip (s : string) : string :=
  String.rev
    (drop_leading isspace1 (fun b a => isspace2 a b)
                  (fun c b a => isspace3 a b c) (String.rev s)).

(** [s.strip()] *)
Definition strip (s : string) : string := rstrip (lstrip s).

(** [sep.join(l)] *)
Definition join (sep : string) (l : list string) : string := String.concat sep l.

End Str.

(** ** The BeautifulSoup fragment

    A parsed document is a tree.  With [html.parser] the [class] attribute is
    multi-valued (a list of tokens) and every other attribute is a string, so
    the two are kept apart in [Tag].  The parser does not accept every body:
    [markup] records what it makes of one, a tree or a rejection. *)

Module Bs4.

#[warnings="-register-all"]
Inductive node : Type :=
| NavigableString (s : string)
| Tag (name : string) (class_ : option (list string))
      (attrs : gmap string string) (contents : list node).

(** What [find] and [find_all] hand back: the node together with the
    siblings that follow it under its parent ([next_siblings]). *)
Record element : Type := Element { this : node; next_siblings : list node }.

(** [tag.descendants]: document order, each with its following siblings. *)
Fixpoint descendants (n : node) : list element :=
  match n with
  | NavigableString _ => []
  | Tag _ _ _ contents =>
      (fix go (l : list node) : list element :=
         match l with
         | [] => []
         | c :: l' => Element c l' :: descendants c ++ go l'
         end) contents
  end.

(** Matching of a [class_=c] filter against a multi-valued attribute: some
    token equals [c], or the tokens joined by blanks equal [c]. *)
Definition class_matches (c : string) (class_ : option (list string)) : bool :=
  match class_ with
  | None => false
  | Some tokens =>
      existsb (String.eqb c) tokens || String.eqb c (Str.join " " tokens)
  end.

(** Search filters: [find(name)], [find(name, class_=c)], [find(name, id=v)]. *)
Inductive strainer : Type :=
| ByName (name : string)
| ByClass (name c : string)
| ByAttr (name k v : string).

Definition matches (f : strainer) (n : node) : bool :=
  match n with
  | NavigableString _ => false
  | Tag name class_ attrs _ =>
      match f with
      | ByName nm => String.eqb name nm
      | ByClass nm c => String.eqb name nm && class_matches c class_
      | ByAttr nm k v =>
          String.eqb name nm &&
          match attrs !! k with Some v' => String.eqb v' v | None => false end
      end
  end.

(** [tag.find_all(...)] *)
Definition find_all (f : strainer) (e : element) : list element :=
  List.filter (fun d => matches f (this d)) (descendants (this e)).

(** [tag.find(...)]: the first match or [None]. *)
Definition find (f : strainer) (e : element) : option element :=
  head (find_all f e).

(** [tag.find_next_sibling(name)] *)
Definition find_next_sibling (nm : string) (e : element) : option element :=
  (fix go (l : list node) : option element :=
     match l with
     | [] => None
     | c :: l' => if matches (ByName nm) c then Some (Element c l') else go l'
     end) (next_siblings e).

Definition string_of (e : element) : option string :=
  match this e with NavigableString s => Some s | Tag _ _ _ _ => None end.

(** [tag.text]: the strings below the tag, concatenated. *)
Definition text (e : element) : string :=
  Str.join "" (omap string_of (descendants (this e))).

(** [tag.get("class", [])] *)
Definition get_class (e : element) : list string :=
  match this e with
  | Tag _ (Some tokens) _ _ => tokens
  | _ => []
  end.

(** [tag.get(k)] for a string-valued attribute. *)
Definition get (k : string) (e : element) : option string :=
  match this e with
  | Tag _ _ attrs _ => attrs !! k
  | NavigableString _ => None
  end.

(** The root object of a parsed document. *)
Definition root (nodes : list node) : element :=
  Element (Tag "[document]" None ∅ nodes) [].

(** A response body as [html.parser] takes it: the top-level nodes it
    builds, or markup it refuses (a marked section such as <![x]>). *)
Inductive markup : Type :=
| Parsed (nodes : list node)
| Rejected.

End Bs4.
Import Bs4.

(** ** Python values, exceptions and effects *)

(** The values stored in a book dictionary: [None], a [str], or the inner
    [product_info] dictionary. *)
Inductive pyval : Type :=
| PNone
| PStr (s : string)
| PDict (d : gmap string string).

(** A book is a Python [dict] from field name to value. *)
Abbreviation book := (gmap string pyval).

(** What [requests] raises: subclasses of [requests.RequestException]. *)
Inductive request_exception : Type :=
| ConnectionError (msg : string)
| ReadTimeout (msg : string)
| HTTPError (status_code : Z).

(** Exceptions: those of [requests], the one [BeautifulSoup] raises on markup
    its parser refuses, and the two a list or dictionary subscript can
    raise. *)
Inductive exn : Type :=
| RequestException (e : request_exception)
| ParserRejectedMarkup
| IndexError
| KeyError (k : string).

Definition is_RequestException (e : exn) : bool :=
  match e with
  | RequestException _ => true
  | ParserRejectedMarkup | IndexError | KeyError _ => false
  end.

(** [except Exception] catches every exception of the model. *)
Definition is_Exception (e : exn) : bool := true.

(** The lines the program prints, one constructor per [print] call. *)
Inductive message : Type :=
| Starting
| ReachedLimit (max_pages : Z)
| Processing (page_num : Z) (catalog_url : string)
| PageNotFound (page_num : Z)
| NoBooksFound (page_num : Z)
| Scraped (title : pyval)
| ErrorScraping (book_url : string) (e : exn)
| ErrorRequesting (page_num : Z) (e : exn)
| TotalScraped (n : nat).

(** Observable effects, in the order they happen. *)
Inductive event : Type :=
| EGet (url : string)                       (* requests.get(url) *)
| EPrint (m : message)                      (* print(...) *)
| ESleep                                    (* time.sleep(0.1) *)
| EDump (file : string) (books : list book) (* json.dump(books, f) *).

(** The mutable part of a run: what has been observed so far and the list
    object bound to [books_list]. *)
Record state : Type := State { trace : list event; books_list : list book }.

Inductive res (A : Type) : Type :=
| Ok (a : A)
| Raise (e : exn)
| OutOfFuel.
Arguments Ok {A} a.
Arguments Raise {A} e.
Arguments OutOfFuel {A}.

Definition Py (A : Type) : Type := state -> res A * state.

Module PyMonad.

Definition ret {A} (a : A) : Py A := fun s => (Ok a, s).

Definition bind {A B} (m : Py A) (k : A -> Py B) : Py B :=
  fun s =>
    match m s with
    | (Ok a, s') => k a s'
    | (Raise e, s') => (Raise e, s')
    | (OutOfFuel, s') => (OutOfFuel, s')
    end.

Definition raise {A} (e : exn) : Py A := fun s => (Raise e, s).

Definition out_of_fuel {A} : Py A := fun s => (OutOfFuel, s).

(** [try: body  except C as e: handler(e)]; what [body] did to the state
    before raising stays done. *)
Definition try_except {A} (body : Py A) (catches : exn -> bool)
    (handler : exn -> Py A) : Py A :=
  fun s =>
    match body s with
    | (Raise e, s') => if catches e then handler e s' else (Raise e, s')
    | r => r
    end.

Definition emit (ev : event) : Py unit :=
  fun s => (Ok tt, State (trace s ++ [ev]) (books_list s)).

Definition print (m : message) : Py unit := emit (EPrint m).

(** [books_list = l] *)
Definition set_books_list (l : list book) : Py unit :=
  fun s => (Ok tt, State (trace s) l).

(** [books_list.append(b)] *)
Definition books_list_append (b : book) : Py unit :=
  fun s => (Ok tt, State (trace s) (books_list s ++ [b])).

Definition get_books_list : Py (list book) :=
  fun s => (Ok (books_list s), s).

(** [l[i]] *)
Definition getitem {A} (l : list A) (i : nat) : Py A :=
  match l !! i with
  | Some x => ret x
  | None => raise IndexError
  end.

(** [d[k]] *)
Definition dict_getitem {V} (d : gmap string V) (k : string) : Py V :=
  match d !! k with
  | Some v => ret v
  | None => raise (KeyError k)
  end.

(** [for x in l: body(x)] *)
Fixpoint for_each {A} (l : list A) (body : A -> Py unit) : Py unit :=
  match l with
  | [] => ret tt
  | x :: l' => bind (body x) (fun _ => for_each l' body)
  end.

End PyMonad.
Import PyMonad.

#[global] Instance Py_ret : MRet Py := @ret.
#[global] Instance Py_bind : MBind Py := fun A B k m => bind m k.

(** [BeautifulSoup(content, "html.parser")]: the root of the parsed
    document, or [ParserRejectedMarkup]. *)
Definition BeautifulSoup (content : markup) : Py element :=
  match content with
  | Parsed nodes => mret (root nodes)
  | Rejected => raise ParserRejectedMarkup
  end.

(** ** The [requests] fragment *)

Record response : Type := Response { status_code : Z; content : markup }.

(** The remote source: what a GET of each URL produces, either a response or
    one of the request exceptions.  The source does not change during a run. *)
Inductive reply : Type :=
| Fails (e : request_exception)
| Replies (r : response).

Definition web : Type := string -> reply.

(** [requests.get(url)] *)
Definition requests_get (www : web) (url : string) : Py response :=
  emit (EGet url);;
  match www url with
  | Fails e => raise (RequestException e)
  | Replies r => mret r
  end.

(** [response.raise_for_status()]: 4xx and 5xx raise [HTTPError]. *)
Definition raise_for_status (r : response) : Py unit :=
  if (400 <=? status_code r) && (status_code r <? 600)
  then raise (RequestException (HTTPError (status_code r)))
  else mret tt.

(** ** [get_book_data] *)

(** [x.text.strip() if x else None] *)
Definition text_or_None (tag : option element) : pyval :=
  match tag with
  | Some t => PStr (Str.strip (text t))
  | None => PNone
  end.

(** One turn of the loop over the rows of the characteristics table. *)
Definition product_info_row (product_info : gmap string string) (row : element)
    : gmap string string :=
  let header := find (ByName "th") row in
  let data := find (ByName "td") row in
  match header, data with
  | Some header, Some data =>
      let key := Str.strip (text header) in
      let value := Str.strip (text data) in
      <[key := value]> product_info
  | _, _ => product_info
  end.

(** Lines 39-81: everything [get_book_data] does with the parsed page. *)
Definition get_book_data_body (soup : element) : Py book :=
  let book_data : book := ∅ in
  let title_tag := find (ByName "h1") soup in
  let book_data := <["title" := text_or_None title_tag]> book_data in
  let price_tag := find (ByClass "p" "price_color") soup in
  let book_data := <["price" := text_or_None price_tag]> book_data in
  let rating_tag := find (ByClass "p" "star-rating") soup in
  rating ← match rating_tag with
           | Some rating_tag =>
               let rating_classes := get_class rating_tag in
               if (1 <? length rating_classes)%nat
               then c ← getitem rating_classes 1; mret (PStr c)
               else mret PNone
           | None => mret PNone
           end;
  let book_data := <["rating" := rating]> book_data in
  let availability_tag := find (ByClass "p" "instock availability") soup in
  let book_data := <["availability" := text_or_None availability_tag]> book_data in
  let description_tag := find (ByAttr "div" "id" "product_description") soup in
  let book_data :=
    match description_tag with
    | Some description_tag =>
        let description_p := find_next_sibling "p" description_tag in
        <["description" := text_or_None description_p]> book_data
    | None => <["description" := PNone]> book_data
    end in
  let table := find (ByClass "table" "table table-striped") soup in
  let product_info :=
    match table with
    | Some table =>
        let rows := find_all (ByName "tr") table in
        foldl product_info_row ∅ rows
    | None => ∅
    end in
  let book_data := <["product_info" := PDict product_info]> book_data in
  mret book_data.

(** Lines 38-81: the parse and the extraction. *)
Definition get_book_data_after_fetch (content : markup) : Py book :=
  soup ← BeautifulSoup content;
  get_book_data_body soup.

Definition get_book_data (www : web) (book_url : string) : Py book :=
  response ← requests_get www book_url;
  raise_for_status response;;
  get_book_data_after_fetch (content response).

(** ** [scrape_books] *)

(** Truth value of an [int]: only [0] is false. *)
Definition truthy_int (n : Z) : bool := negb (n =? 0).

(** [max_pages and page_num > max_pages]: the bound when the check fires.
    [None] is false, and so is [0]. *)
Definition reached_limit (max_pages : option Z) (page_num : Z) : option Z :=
  match max_pages with
  | Some m => if truthy_int m && (page_num >? m) then Some m else None
  | None => None
  end.

(** Truth value of [a_tag.get("href")]: [None] and the empty string are false. *)
Definition truthy_str (s : option string) : bool :=
  match s with
  | None | Some "" => false
  | Some _ => true
  end.

(** [base_url.format(page_num)] *)
Definition catalog_url_of (page_num : Z) : string :=
  "http://books.toscrape.com/catalogue/page-" +:+ pretty page_num +:+ ".html".

(** [tag[k]] *)
Definition tag_getitem (tag : element) (k : string) : Py string :=
  match get k tag with
  | Some v => mret v
  | None => raise (KeyError k)
  end.

Inductive flow : Type := Break | Continue.

Section Crawl.

Variable www : web.

(** Lines 143-150: fetch one detail page, keep its record or report the
    failure, then pause. *)
Definition scrape_book (book_url : string) : Py unit :=
  try_except
    (book_data ← get_book_data www book_url;
     books_list_append book_data;;
     title ← dict_getitem book_data "title";
     print (Scraped title))
    is_Exception
    (fun e => print (ErrorScraping book_url e));;
  emit ESleep.

(** Lines 134-150: the body of [for article in book_articles]. *)
Definition scrape_article (article : element) : Py unit :=
  let h3_tag := find (ByName "h3") article in
  match h3_tag with
  | Some h3_tag =>
      let a_tag := find (ByName "a") h3_tag in
      match a_tag with
      | Some a_tag =>
          if truthy_str (get "href" a_tag) then
            book_relative_url ← tag_getitem a_tag "href";
            let book_url :=
              "http://books.toscrape.com/catalogue/" +:+ book_relative_url in
            scrape_book book_url
          else mret tt
      | None => mret tt
      end
  | None => mret tt
  end.

(** Lines 120-152: the [try] block of one turn of the page loop. *)
Definition scrape_page (page_num : Z) (catalog_url : string) : Py flow :=
  response ← requests_get www catalog_url;
  if status_code response =? 404 then
    print (PageNotFound page_num);; mret Break
  else
    raise_for_status response;;
    soup ← BeautifulSoup (content response);
    let book_articles := find_all (ByClass "article" "product_pod") soup in
    match book_articles with
    | [] => print (NoBooksFound page_num);; mret Break
    | _ :: _ =>
        for_each book_articles scrape_article;;
        mret Continue  (* page_num += 1 *)
    end.

(** Lines 112-156: one turn of [while True]. *)
Definition loop_body (max_pages : option Z) (page_num : Z) : Py flow :=
  match reached_limit max_pages page_num with
  | Some m => print (ReachedLimit m);; mret Break
  | None =>
      let catalog_url := catalog_url_of page_num in
      print (Processing page_num catalog_url);;
      try_except
        (scrape_page page_num catalog_url)
        is_RequestException
        (fun e => print (ErrorRequesting page_num e);; mret Break)
  end.

(** [while True], unrolled at most [fuel] times. *)
Fixpoint while_True (fuel : nat) (max_pages : option Z) (page_num : Z)
    : Py unit :=
  match fuel with
  | O => out_of_fuel
  | S fuel' =>
      fl ← loop_body max_pages page_num;
      match fl with
      | Break => mret tt
      | Continue => while_True fuel' max_pages (page_num + 1)
      end
  end.

Definition scrape_books (fuel : nat) (is_save : bool) (max_pages : option Z)
    : Py (list book) :=
  set_books_list [];;
  let page_num := 1 in
  print Starting;;
  while_True fuel max_pages page_num;;
  books ← get_books_list;
  print (TotalScraped (length books));;
  (if is_save then emit (EDump "books_data.txt" books) else mret tt);;
  mret books.

End Crawl.

(** A call from a caller that has observed nothing yet. *)
Definition initial : state := State [] [].

(** What the caller of [scrape_books] gets back, and what happened. *)
Definition returned {A} (r : res A * state) : res A := fst r.
Definition observed {A} (r : res A * state) : list event := trace (snd r).

(** ** Pure views of the extraction

    [extract_item] is the record the detail extractor is specified to build,
    written without effects; [get_book_data_body_extract] shows that the code
    computes it. *)

(** The rating as the specification words it: the second classification
    token of the indicator, absent with fewer than two tokens or with no
    indicator. *)
Definition rating_spec (indicator : option (list string)) : pyval :=
  match indicator with
  | Some tokens =>
      match tokens !! 1%nat with
      | Some second => PStr second
      | None => PNone
      end
  | None => PNone
  end.

(** The pair a table row contributes, if it has both cells. *)
Definition row_pair (row : element) : option (string * string) :=
  match find (ByName "th") row, find (ByName "td") row with
  | Some header, Some data =>
      Some (Str.strip (text header), Str.strip (text data))
  | _, _ => None
  end.

(** The mapping as the specification words it: one pair per row with both
    cells, a later duplicate key winning over an earlier one. *)
Definition product_info_spec (rows : list element) : gmap string string :=
  list_to_map (reverse (omap row_pair rows)).

Definition product_info_of (soup : element) : gmap string string :=
  match find (ByClass "table" "table table-striped") soup with
  | Some table => product_info_spec (find_all (ByName "tr") table)
  | None => ∅
  end.

Definition description_of (soup : element) : pyval :=
  match find (ByAttr "div" "id" "product_description") soup with
  | Some description_tag => text_or_None (find_next_sibling "p" description_tag)
  | None => PNone
  end.

Definition extract_item (soup : element) : book :=
  <["product_info" := PDict (product_info_of soup)]>
  (<["description" := description_of soup]>
  (<["availability" := text_or_None (find (ByClass "p" "instock availability") soup)]>
  (<["rating" := rating_spec (get_class <$> find (ByClass "p" "star-rating") soup)]>
  (<["price" := text_or_None (find (ByClass "p" "price_color") soup)]>
  (<["title" := text_or_None (find (ByName "h1") soup)]> ∅))))).

(** Detail documents whose star-rating indicator carries two tokens, and
    one token only. *)
Definition three_star_document : element :=
  root [Tag "p" (Some ["star-rating"; "Three"]) ∅ []].

Definition unrated_document : element :=
  root [Tag "p" (Some ["star-rating"]) ∅ []].

(** A characteristics table with the row ("UPC", "abc123") and a row that has
    only a header cell. *)
Definition upc_document : element :=
  root
    [Tag "table" (Some ["table"; "table-striped"]) ∅
       [Tag "tr" None ∅
          [Tag "th" None ∅ [NavigableString "UPC"];
           Tag "td" None ∅ [NavigableString "abc123"]];
        Tag "tr" None ∅
          [Tag "th" None ∅ [NavigableString "Tax"]]]].

Definition is_text_or_None (v : pyval) : Prop :=
  match v with
  | PNone | PStr _ => True
  | PDict _ => False
  end.


(** ** Pure views of the crawl

    The same decisions as in [scrape_books], as functions of the source
    alone; the lemmas below show that the code follows them. *)

(** The item containers of a listing document. *)
Definition item_containers (soup : element) : list element :=
  find_all (ByClass "article" "product_pod") soup.

(** The detail-page reference of one container (lines 134-141): the [href]
    of the first anchor under its first [h3], resolved against the fixed
    base; none when a piece is missing or the [href] is empty. *)
Definition article_ref (article : element) : option string :=
  h3_tag ← find (ByName "h3") article;
  a_tag ← find (ByName "a") h3_tag;
  href ← get "href" a_tag;
  if truthy_str (Some href)
  then Some ("http://books.toscrape.com/catalogue/" +:+ href)
  else None.

Definition extract_refs (soup : element) : list string :=
  omap article_ref (item_containers soup).

(** What [get_book_data] comes back with for a URL. *)
Definition detail_outcome (www : web) (book_url : string) : exn + book :=
  match www book_url with
  | Fails e => inl (RequestException e)
  | Replies r =>
      if (400 <=? status_code r) && (status_code r <? 600)
      then inl (RequestException (HTTPError (status_code r)))
      else
        match content r with
        | Parsed nodes => inr (extract_item (root nodes))
        | Rejected => inl ParserRejectedMarkup
        end
  end.

Definition item_of (www : web) (book_url : string) : option book :=
  match detail_outcome www book_url with
  | inr book_data => Some book_data
  | inl _ => None
  end.

(** The line printed for one reference. *)
Definition book_report (www : web) (book_url : string) : message :=
  match detail_outcome www book_url with
  | inr book_data => Scraped (default PNone (book_data !! "title"))
  | inl e => ErrorScraping book_url e
  end.

Definition book_events (www : web) (book_url : string) : list event :=
  [EGet book_url; EPrint (book_report www book_url); ESleep].

(** The items of one listing document, in listing order. *)
Definition page_items (www : web) (soup : element) : list book :=
  omap (item_of www) (extract_refs soup).

(** Classification of the fetch of listing page [page_num]. *)
Inductive listing : Type :=
| NotFound
| TransportError (e : request_exception)
| Unparsable
| NoItems
| Items (soup : element).

Definition fetch_listing (www : web) (page_num : Z) : listing :=
  match www (catalog_url_of page_num) with
  | Fails e => TransportError e
  | Replies r =>
      if status_code r =? 404 then NotFound
      else if (400 <=? status_code r) && (status_code r <? 600)
      then TransportError (HTTPError (status_code r))
      else
        match content r with
        | Rejected => Unparsable
        | Parsed nodes =>
            let soup := root nodes in
            match item_containers soup with
            | [] => NoItems
            | _ :: _ => Items soup
            end
        end
  end.

(** One turn of the page loop: it stops and prints why, it goes through a
    listing document, or it lets an exception out. *)
Inductive turn : Type :=
| Stops (why : message)
| Goes (soup : element)
| Raises (e : exn).

Definition turn_of (www : web) (max_pages : option Z) (page_num : Z) : turn :=
  match reached_limit max_pages page_num with
  | Some m => Stops (ReachedLimit m)
  | None =>
      match fetch_listing www page_num with
      | NotFound => Stops (PageNotFound page_num)
      | TransportError e =>
          Stops (ErrorRequesting page_num (RequestException e))
      | Unparsable => Raises ParserRejectedMarkup
      | NoItems => Stops (NoBooksFound page_num)
      | Items soup => Goes soup
      end
  end.

Definition listing_events (page_num : Z) : list event :=
  [EPrint (Processing page_num (catalog_url_of page_num));
   EGet (catalog_url_of page_num)].

Definition stop_events (max_pages : option Z) (page_num : Z) (why : message)
    : list event :=
  match reached_limit max_pages page_num with
  | Some _ => [EPrint why]
  | None => listing_events page_num ++ [EPrint why]
  end.

Definition page_events (www : web) (page_num : Z) (soup : element)
    : list event :=
  listing_events page_num ++ flat_map (book_events www) (extract_refs soup).

(** The items of listing page [page_num] of the source. *)
Definition page_books (www : web) (page_num : Z) : list book :=
  match fetch_listing www page_num with
  | Items soup => page_items www soup
  | _ => []
  end.

(** The items of [n] consecutive pages from [first] on. *)
Fixpoint pages_books (www : web) (first : Z) (n : nat) : list book :=
  match n with
  | O => []
  | S n' => page_books www first ++ pages_books www (first + 1) n'
  end.

(** What is observed while going through listing page [page_num]. *)
Definition page_trace (www : web) (page_num : Z) : list event :=
  match fetch_listing www page_num with
  | Items soup => page_events www page_num soup
  | _ => []
  end.

Fixpoint pages_trace (www : web) (first : Z) (n : nat) : list event :=
  match n with
  | O => []
  | S n' => page_trace www first ++ pages_trace www (first + 1) n'
  end.

(** What [scrape_books] does after the loop. *)
Definition closing_events (is_save : bool) (books : list book) : list event :=
  EPrint (TotalScraped (length books)) ::
  (if is_save then [EDump "books_data.txt" books] else []).

(** ** Sample sources *)

(** A source that serves the listed URLs and answers 404 everywhere else. *)
Definition serve (pages : list (string * reply)) : web :=
  fun url =>
    default (Replies (Response 404 (Parsed [])))
            ((list_to_map pages : gmap string reply) !! url).

(** A reply with a status and a body the parser accepts. *)
Definition page (status_code : Z) (nodes : list node) : reply :=
  Replies (Response status_code (Parsed nodes)).

(** An item container whose heading links to [href]. *)
Definition container (href : string) : node :=
  Tag "article" (Some ["product_pod"]) ∅
    [Tag "h3" None ∅
       [Tag "a" None {["href" := href]} [NavigableString "cover"]]].

(** An item container without a heading. *)
Definition bare_container : node :=
  Tag "article" (Some ["product_pod"]) ∅ [NavigableString "sold out"].

Definition titled (title : string) : list node :=
  [Tag "h1" None ∅ [NavigableString title]].

Definition book_url_of (href : string) : string :=
  "http://books.toscrape.com/catalogue/" +:+ href.

(** Two listing pages, three books (one of them answering 500), then 404. *)
Definition www_two_pages : web :=
  serve
    [(catalog_url_of 1,
      page 200 [container "a.html"; container "b.html"]);
     (catalog_url_of 2, page 200 [container "c.html"]);
     (book_url_of "a.html", page 200 (titled "A"));
     (book_url_of "b.html", page 500 []);
     (book_url_of "c.html", page 200 (titled "C"))].

(** One listing page with one book; the fetch of page 2 fails. *)
Definition www_down : web :=
  serve
    [(catalog_url_of 1, page 200 [container "a.html"]);
     (catalog_url_of 2, Fails (ConnectionError "connection refused"));
     (book_url_of "a.html", page 200 (titled "A"))].

(** The same catalog, ending with a 404 for page 2. *)
Definition www_end : web :=
  serve
    [(catalog_url_of 1, page 200 [container "a.html"]);
     (book_url_of "a.html", page 200 (titled "A"))].


(** One listing page with two books; the markup of the first book's detail
    page is rejected by the parser. *)
Definition www_garbled_detail : web :=
  serve
    [(catalog_url_of 1, page 200 [container "a.html"; container "b.html"]);
     (book_url_of "a.html", Replies (Response 200 Rejected));
     (book_url_of "b.html", page 200 (titled "B"))].

(** One listing page whose only book has a detail page without a heading. *)
Definition www_untitled : web :=
  serve
    [(catalog_url_of 1, page 200 [container "a.html"]);
     (book_url_of "a.html", page 200 [])].

(** A listing with two containers, one of them without a heading. *)
Definition listing_with_bare_container : element :=
  root [container "a.html"; bare_container].

(** ** Pure view of the whole loop *)

(** What [while True] comes back with from page [page_num] on, as a function
    of the source: how it ended, what it did, and what it appended. *)
Fixpoint crawl_from (www : web) (fuel : nat) (max_pages : option Z)
    (page_num : Z) : res unit * list event * list book :=
  match fuel with
  | O => (OutOfFuel, [], [])
  | S fuel' =>
      match turn_of www max_pages page_num with
      | Stops why => (Ok tt, stop_events max_pages page_num why, [])
      | Goes soup =>
          let '(r, tr, books) := crawl_from www fuel' max_pages (page_num + 1) in
          (r, page_events www page_num soup ++ tr, page_items www soup ++ books)
      | Raises e => (Raise e, listing_events page_num, [])
      end
  end.

(** ** Reading a trace *)

Definition is_get (ev : event) : bool :=
  match ev with EGet _ => true | _ => false end.

Definition is_sleep (ev : event) : bool :=
  match ev with ESleep => true | _ => false end.

Definition is_dump (ev : event) : bool :=
  match ev with EDump _ _ => true | _ => false end.

Definition is_processing (ev : event) : bool :=
  match ev with EPrint (Processing _ _) => true | _ => false end.

Definition is_scraped (ev : event) : bool :=
  match ev with EPrint (Scraped _) => true | _ => false end.

Definition is_error_scraping (ev : event) : bool :=
  match ev with EPrint (ErrorScraping _ _) => true | _ => false end.

(** How many events of a trace satisfy [p]. *)
Definition count (p : event -> bool) (tr : list event) : nat :=
  length (List.filter p tr).

(** The fixed location every request of the scraper starts with. *)
Definition catalogue : string := "http://books.toscrape.com/catalogue/".

(** No whitespace character at either end. *)
Definition trimmed (s : string) : Prop :=
  Str.starts_with_space s = false /\ Str.ends_with_space s = false.

Definition trimmed_or_None (v : pyval) : Prop :=
  match v with
  | PNone => True
  | PStr s => trimmed s
  | PDict _ => False
  end.

(** The events the page loop can produce: everything but the opening line,
    the closing line and the dump, with every request under [catalogue]. *)
Definition loop_event (ev : event) : Prop :=
  match ev with
  | EGet url => exists rest, url = catalogue +:+ rest
  | EPrint Starting | EPrint (TotalScraped _) | EDump _ _ => False
  | EPrint _ | ESleep => True
  end.

(** The bookkeeping a trace and the list built with it agree on: a request
    is a listing fetch or a detail fetch followed by its pause, a detail
    fetch ends in a record or in a reported error, and the records are the
    "Scraped" lines. *)
Definition balanced (tr : list event) (books : list book) : Prop :=
  count is_get tr = (count is_processing tr + count is_sleep tr)%nat /\
  count is_sleep tr = (count is_scraped tr + count is_error_scraping tr)%nat /\
  length books = count is_scraped tr.

(** A catalog that has a second page whose only container has no link. *)
Definition www_linkless_page : web :=
  serve
    [(catalog_url_of 1, page 200 [container "a.html"]);
     (catalog_url_of 2, page 200 [bare_container]);
     (catalog_url_of 3, page 200 []);
     (book_url_of "a.html", page 200 (titled "A"))].
(** * Properties *)

(** ** Running the monad *)

Lemma bind_run {A B} (m : Py A) (k : A -> Py B) (s : state) :
  (m ≫= k) s =
  match m s with
  | (Ok a, s') => k a s'
  | (Raise e, s') => (Raise e, s')
  | (OutOfFuel, s') => (OutOfFuel, s')
  end.
Proof. reflexivity. Qed.

Lemma for_each_cons {A} (x : A) (l : list A) (body : A -> Py unit) (s : state) :
  for_each (x :: l) body s =
  match body x s with
  | (Ok _, s') => for_each l body s'
  | (Raise e, s') => (Raise e, s')
  | (OutOfFuel, s') => (OutOfFuel, s')
  end.
Proof. reflexivity. Qed.

#[local] Arguments for_each : simpl never.

(** Unfold the monad's operations on an explicit state. *)
Ltac run_py :=
  cbv beta delta [mbind mret Py_bind Py_ret bind ret raise emit print
                  books_list_append set_books_list get_books_list
                  is_Exception] iota;
  simpl.

(** ** The detail extractor *)

Lemma product_info_row_pair (m : gmap string string) (row : element) :
  product_info_row m row =
  match row_pair row with Some (k, v) => <[k := v]> m | None => m end.
Proof.
  unfold product_info_row, row_pair.
  destruct (find (ByName "th") row), (find (ByName "td") row); reflexivity.
Qed.

Lemma foldl_product_info_row (rows : list element) (m : gmap string string) :
  foldl product_info_row m rows =
  list_to_map (reverse (omap row_pair rows)) ∪ m.
Proof.
  revert m. induction rows as [|row rows IH]; intros m; simpl.
  - rewrite (left_id_L ∅ (∪)). reflexivity.
  - rewrite IH, product_info_row_pair.
    destruct (row_pair row) as [[k v]|]; [|reflexivity].
    rewrite reverse_cons, list_to_map_app. simpl.
    rewrite insert_empty, (insert_union_singleton_l m).
    rewrite (assoc_L (∪)). reflexivity.
Qed.

Lemma get_book_data_body_extract (soup : element) (s : state) :
  get_book_data_body soup s = (Ok (extract_item soup), s).
Proof.
  unfold get_book_data_body, extract_item, description_of, product_info_of,
    product_info_spec.
  assert (Hrows : forall rows, foldl product_info_row ∅ rows =
                    list_to_map (reverse (omap row_pair rows))).
  { intros rows. rewrite foldl_product_info_row.
    apply (right_id_L ∅ (∪)). }
  destruct (find (ByClass "p" "star-rating") soup) as [rating_tag|]; simpl.
  - destruct (get_class rating_tag) as [|c0 [|c1 cs]]; simpl;
      destruct (find (ByAttr "div" "id" "product_description") soup);
      destruct (find (ByClass "table" "table table-striped") soup);
      rewrite ?Hrows; reflexivity.
  - destruct (find (ByAttr "div" "id" "product_description") soup);
      destruct (find (ByClass "table" "table table-striped") soup);
      rewrite ?Hrows; reflexivity.
Qed.

Lemma product_info_spec_snoc (rows : list element) (row : element) :
  product_info_spec (rows ++ [row]) =
  match row_pair row with
  | Some (k, v) => <[k := v]> (product_info_spec rows)
  | None => product_info_spec rows
  end.
Proof.
  unfold product_info_spec. rewrite omap_app. simpl.
  destruct (row_pair row) as [[k v]|]; simpl.
  - rewrite reverse_app. reflexivity.
  - rewrite (right_id_L [] (++)). reflexivity.
Qed.

(** C10, as stated, fails: the extraction phase starts with the parse (line
    38), and on a body the parser rejects it raises [ParserRejectedMarkup]
    instead of returning a record. *)
Lemma rejected_markup_raises :
  get_book_data_after_fetch Rejected initial =
  (Raise ParserRejectedMarkup, initial).
Proof. reflexivity. Qed.

(** C10, amended: on every detail document the parser accepts, whatever
    elements it contains, the extraction phase of [get_book_data] returns
    normally, without touching the state, a dictionary whose keys are
    exactly title, price, rating, availability, description and
    product_info; the first five hold a text or [None], product_info holds a
    mapping.  On the document with none of the expected elements the five
    are [None] and the mapping is empty.  A body the parser rejects is the
    only input on which the phase raises. *)
Theorem get_book_data_body_six_keys (content : markup) (s : state) :
  (forall nodes, content = Parsed nodes ->
     exists book_data : book,
       get_book_data_after_fetch content s = (Ok book_data, s) /\
       dom book_data =
         ({[ "title"; "price"; "rating"; "availability"; "description";
             "product_info" ]} : gset string) /\
       (forall k : string,
           k ∈ ["title"; "price"; "rating"; "availability"; "description"] ->
           exists v, book_data !! k = Some v /\ is_text_or_None v) /\
       (exists m, book_data !! "product_info" = Some (PDict m))) /\
  (forall e, get_book_data_after_fetch content s = (Raise e, s) ->
     content = Rejected /\ e = ParserRejectedMarkup) /\
  get_book_data_after_fetch content s <> (OutOfFuel, s) /\
  get_book_data_after_fetch (Parsed []) s =
    (Ok (<["product_info" := PDict ∅]>
         (<["description" := PNone]>
         (<["availability" := PNone]>
         (<["rating" := PNone]>
         (<["price" := PNone]>
         (<["title" := PNone]> ∅)))))), s).
Proof.
  assert (Hrun : forall nodes,
            get_book_data_after_fetch (Parsed nodes) s =
            (Ok (extract_item (root nodes)), s)).
  { intros nodes. unfold get_book_data_after_fetch. rewrite bind_run. simpl.
    apply get_book_data_body_extract. }
  split; [|split; [|split]].
  - intros nodes ->. exists (extract_item (root nodes)).
    split; [apply Hrun|].
    unfold extract_item. split; [|split].
    + rewrite !dom_insert_L, dom_empty_L. set_solver.
    + intros k Hk.
      assert (Htext : forall t, is_text_or_None (text_or_None t))
        by (intros [t|]; exact I).
      repeat (apply elem_of_cons in Hk as [->|Hk]);
        [..|by apply elem_of_nil in Hk];
        eexists; (split; [by simplify_map_eq|]); try apply Htext.
      * unfold rating_spec.
        destruct (get_class <$> _) as [tokens|]; [|exact I].
        destruct (tokens !! 1%nat); exact I.
      * unfold description_of.
        destruct (find _ (root nodes)); [apply Htext|exact I].
    + eexists. by simplify_map_eq.
  - intros e. destruct content as [nodes|].
    + rewrite Hrun. discriminate.
    + intros [= <-]. split; reflexivity.
  - destruct content as [nodes|]; [rewrite Hrun|]; discriminate.
  - rewrite Hrun. reflexivity.
Qed.

Lemma get_book_data_body_six_keys_witness :
  exists book_data : book,
    get_book_data_after_fetch (Parsed (titled "A")) initial =
      (Ok book_data, initial) /\
    dom book_data =
      ({[ "title"; "price"; "rating"; "availability"; "description";
          "product_info" ]} : gset string) /\
    (forall k : string,
        k ∈ ["title"; "price"; "rating"; "availability"; "description"] ->
        exists v, book_data !! k = Some v /\ is_text_or_None v) /\
    (exists m, book_data !! "product_info" = Some (PDict m)).
Proof.
  apply (proj1 (get_book_data_body_six_keys (Parsed (titled "A")) initial)
           (titled "A")).
  reflexivity.
Defined.

(** C5: the rating stored by [get_book_data] is the second class token of the
    star-rating indicator (the first [p] whose class matches "star-rating"),
    and [None] when there is no indicator or it has fewer than two tokens;
    an indicator with tokens ["star-rating", "Three"] gives "Three", one with
    ["star-rating"] alone gives [None]. *)
Theorem rating_is_second_token (soup : element) (s : state) :
  (exists book_data : book,
      get_book_data_body soup s = (Ok book_data, s) /\
      book_data !! "rating" =
        Some match find (ByClass "p" "star-rating") soup with
             | Some indicator =>
                 match get_class indicator !! 1%nat with
                 | Some second => PStr second
                 | None => PNone
                 end
             | None => PNone
             end) /\
  (exists book_data : book,
      get_book_data_body three_star_document s = (Ok book_data, s) /\
      book_data !! "rating" = Some (PStr "Three")) /\
  (exists book_data : book,
      get_book_data_body unrated_document s = (Ok book_data, s) /\
      book_data !! "rating" = Some PNone).
Proof.
  split; [|split].
  - exists (extract_item soup). split; [apply get_book_data_body_extract|].
    unfold extract_item. simplify_map_eq.
    destruct (find (ByClass "p" "star-rating") soup); reflexivity.
  - eexists. split; [apply get_book_data_body_extract|reflexivity].
  - eexists. split; [apply get_book_data_body_extract|reflexivity].
Qed.

(** C9: product_info is the scan of the rows of the first table of class
    "table table-striped": starting from the empty mapping, a row with both a
    [th] and a [td] stores the pair of their stripped texts, replacing an
    earlier value of the same key, and a row without one of them changes
    nothing.  The table with the row ("UPC", "abc123") and a header-only row
    gives {"UPC": "abc123"}. *)
Theorem product_info_scanned (soup : element) (s : state) :
  (exists book_data : book,
      get_book_data_body soup s = (Ok book_data, s) /\
      book_data !! "product_info" =
        Some (PDict match find (ByClass "table" "table table-striped") soup with
                    | Some table =>
                        product_info_spec (find_all (ByName "tr") table)
                    | None => ∅
                    end)) /\
  product_info_spec [] = ∅ /\
  (forall rows row header data,
      find (ByName "th") row = Some header ->
      find (ByName "td") row = Some data ->
      product_info_spec (rows ++ [row]) =
      <[Str.strip (text header) := Str.strip (text data)]>
        (product_info_spec rows)) /\
  (forall rows row,
      find (ByName "th") row = None \/ find (ByName "td") row = None ->
      product_info_spec (rows ++ [row]) = product_info_spec rows) /\
  get_book_data_body upc_document s =
    (Ok (<["product_info" := PDict {["UPC" := "abc123"]}]>
         (<["description" := PNone]>
         (<["availability" := PNone]>
         (<["rating" := PNone]>
         (<["price" := PNone]>
         (<["title" := PNone]> ∅)))))), s).
Proof.
  split; [|split; [reflexivity|split; [|split]]].
  - exists (extract_item soup). split; [apply get_book_data_body_extract|].
    unfold extract_item. by simplify_map_eq.
  - intros rows row header data Hth Htd.
    rewrite product_info_spec_snoc. unfold row_pair. rewrite Hth, Htd.
    reflexivity.
  - intros rows row Hmissing.
    rewrite product_info_spec_snoc. unfold row_pair.
    destruct Hmissing as [-> | ->]; [|destruct (find (ByName "th") row)];
      reflexivity.
  - rewrite get_book_data_body_extract. reflexivity.
Qed.

(** ** One detail page *)

Lemma requests_get_run (www : web) (url : string) (s : state) :
  requests_get www url s =
  (match www url with
   | Fails e => Raise (RequestException e)
   | Replies r => Ok r
   end, State (trace s ++ [EGet url]) (books_list s)).
Proof.
  unfold requests_get. rewrite bind_run. simpl.
  destruct (www url); reflexivity.
Qed.

Lemma get_book_data_run (www : web) (book_url : string) (s : state) :
  get_book_data www book_url s =
  (match detail_outcome www book_url with
   | inl e => Raise e
   | inr book_data => Ok book_data
   end, State (trace s ++ [EGet book_url]) (books_list s)).
Proof.
  unfold get_book_data, detail_outcome.
  rewrite bind_run, requests_get_run.
  destruct (www book_url) as [e|r]; [reflexivity|].
  rewrite bind_run. unfold raise_for_status.
  destruct ((400 <=? status_code r) && (status_code r <? 600)); [reflexivity|].
  simpl. unfold get_book_data_after_fetch. rewrite bind_run.
  destruct (content r) as [nodes|]; [|reflexivity].
  simpl. apply get_book_data_body_extract.
Qed.

Lemma extract_item_title (soup : element) :
  extract_item soup !! "title" = Some (text_or_None (find (ByName "h1") soup)).
Proof. unfold extract_item. by simplify_map_eq. Qed.

Lemma detail_outcome_title (www : web) (book_url : string) (book_data : book) :
  detail_outcome www book_url = inr book_data ->
  exists title, book_data !! "title" = Some title.
Proof.
  unfold detail_outcome. destruct (www book_url) as [e|r]; [discriminate|].
  destruct (_ && _); [discriminate|].
  destruct (content r) as [nodes|]; [|discriminate]. intros [= <-].
  eexists. apply extract_item_title.
Qed.

Lemma scrape_book_run (www : web) (book_url : string) (s : state) :
  scrape_book www book_url s =
  (Ok tt, State (trace s ++ book_events www book_url)
                (books_list s ++ option_list (item_of www book_url))).
Proof.
  unfold scrape_book, book_events, book_report, item_of.
  rewrite bind_run. unfold try_except at 1.
  rewrite bind_run, get_book_data_run.
  destruct (detail_outcome www book_url) as [e|book_data] eqn:Hout; run_py.
  - rewrite <- !(assoc_L (++)), (right_id_L [] (++)). reflexivity.
  - destruct (detail_outcome_title _ _ _ Hout) as [title Htitle].
    unfold dict_getitem. rewrite Htitle. run_py.
    rewrite <- !(assoc_L (++)). reflexivity.
Qed.

(** ** One listing page *)

Lemma scrape_article_run (www : web) (article : element) (s : state) :
  scrape_article www article s =
  match article_ref article with
  | Some book_url => scrape_book www book_url s
  | None => (Ok tt, s)
  end.
Proof.
  unfold scrape_article, article_ref. simpl.
  destruct (find (ByName "h3") article) as [h3_tag|]; simpl; [|reflexivity].
  destruct (find (ByName "a") h3_tag) as [a_tag|]; simpl; [|reflexivity].
  unfold tag_getitem.
  destruct (get "href" a_tag) as [href|]; simpl; [|reflexivity].
  destruct href; reflexivity.
Qed.

Lemma for_each_articles_run (www : web) (articles : list element) (s : state) :
  for_each articles (scrape_article www) s =
  (Ok tt,
   State (trace s ++ flat_map (book_events www) (omap article_ref articles))
         (books_list s ++ omap (item_of www) (omap article_ref articles))).
Proof.
  revert s. induction articles as [|article articles IH]; intros [tr bl].
  - simpl. rewrite !(right_id_L [] (++)). reflexivity.
  - rewrite for_each_cons, scrape_article_run. simpl.
    destruct (article_ref article) as [book_url|]; simpl.
    + rewrite scrape_book_run, IH. simpl.
      rewrite <- !(assoc_L (++)).
      destruct (item_of www book_url); reflexivity.
    + rewrite IH. reflexivity.
Qed.

Lemma loop_body_run (www : web) (max_pages : option Z) (page_num : Z)
    (s : state) :
  loop_body www max_pages page_num s =
  match turn_of www max_pages page_num with
  | Stops why =>
      (Ok Break,
       State (trace s ++ stop_events max_pages page_num why) (books_list s))
  | Goes soup =>
      (Ok Continue,
       State (trace s ++ page_events www page_num soup)
             (books_list s ++ page_items www soup))
  | Raises e =>
      (Raise e, State (trace s ++ listing_events page_num) (books_list s))
  end.
Proof.
  unfold loop_body, turn_of, stop_events, page_events, listing_events.
  destruct (reached_limit max_pages page_num) as [m|]; [reflexivity|].
  rewrite bind_run. simpl. unfold try_except, scrape_page, fetch_listing.
  rewrite bind_run, requests_get_run.
  destruct (www (catalog_url_of page_num)) as [e|r]; run_py.
  { rewrite <- !(assoc_L (++)). reflexivity. }
  destruct (status_code r =? 404); run_py.
  { rewrite <- !(assoc_L (++)). reflexivity. }
  unfold raise_for_status.
  destruct ((400 <=? status_code r) && (status_code r <? 600)); run_py.
  { rewrite <- !(assoc_L (++)). reflexivity. }
  destruct (content r) as [nodes|]; run_py.
  2: { rewrite <- !(assoc_L (++)). reflexivity. }
  unfold page_items, extract_refs, item_containers.
  destruct (find_all _ (root nodes)) as [|a l] eqn:Hall; run_py.
  { rewrite <- !(assoc_L (++)). reflexivity. }
  rewrite for_each_articles_run. run_py. rewrite ?Hall. simpl.
  rewrite <- !(assoc_L (++)). reflexivity.
Qed.

(** ** The page loop *)

Lemma turn_of_Items (www : web) (max_pages : option Z) (page_num : Z)
    (soup : element) :
  turn_of www max_pages page_num = Goes soup ->
  fetch_listing www page_num = Items soup.
Proof.
  unfold turn_of. destruct (reached_limit max_pages page_num); [discriminate|].
  destruct (fetch_listing www page_num); congruence.
Qed.

Lemma while_True_stop (www : web) (fuel : nat) (max_pages : option Z)
    (page_num : Z) (why : message) (s : state) :
  turn_of www max_pages page_num = Stops why ->
  while_True www (S fuel) max_pages page_num s =
  (Ok tt, State (trace s ++ stop_events max_pages page_num why) (books_list s)).
Proof.
  intros Hturn. simpl. rewrite bind_run, loop_body_run, Hturn. reflexivity.
Qed.

Lemma while_True_go (www : web) (fuel : nat) (max_pages : option Z)
    (page_num : Z) (soup : element) (s : state) :
  turn_of www max_pages page_num = Goes soup ->
  while_True www (S fuel) max_pages page_num s =
  while_True www fuel max_pages (page_num + 1)
    (State (trace s ++ page_events www page_num soup)
           (books_list s ++ page_items www soup)).
Proof.
  intros Hturn. simpl. rewrite bind_run, loop_body_run, Hturn. reflexivity.
Qed.

Lemma while_True_raise (www : web) (fuel : nat) (max_pages : option Z)
    (page_num : Z) (e : exn) (s : state) :
  turn_of www max_pages page_num = Raises e ->
  while_True www (S fuel) max_pages page_num s =
  (Raise e, State (trace s ++ listing_events page_num) (books_list s)).
Proof.
  intros Hturn. simpl. rewrite bind_run, loop_body_run, Hturn. reflexivity.
Qed.

(** [n] pages gone through from [first] on, then a turn that stops. *)
Lemma while_True_pages (www : web) (max_pages : option Z) (n : nat) :
  forall (fuel : nat) (first : Z) (why : message) (s : state),
    (n < fuel)%nat ->
    (forall i, (i < n)%nat ->
       exists soup, turn_of www max_pages (first + Z.of_nat i) = Goes soup) ->
    turn_of www max_pages (first + Z.of_nat n) = Stops why ->
    while_True www fuel max_pages first s =
    (Ok tt,
     State (trace s ++ pages_trace www first n ++
              stop_events max_pages (first + Z.of_nat n) why)
           (books_list s ++ pages_books www first n)).
Proof.
  induction n as [|n IH]; intros fuel first why s Hfuel Hgo Hstop.
  - destruct fuel as [|fuel]; [lia|].
    rewrite Z.add_0_r in Hstop. rewrite (while_True_stop _ _ _ _ _ _ Hstop).
    simpl. rewrite Z.add_0_r, (right_id_L [] (++)). reflexivity.
  - destruct fuel as [|fuel]; [lia|].
    destruct (Hgo 0%nat ltac:(lia)) as [soup Hsoup].
    rewrite Z.add_0_r in Hsoup.
    rewrite (while_True_go _ _ _ _ _ _ Hsoup).
    rewrite (IH fuel (first + 1) why).
    + simpl. unfold page_trace, page_books.
      rewrite (turn_of_Items _ _ _ _ Hsoup).
      replace (first + 1 + Z.of_nat n) with (first + Z.of_nat (S n)) by lia.
      rewrite <- !(assoc_L (++)). reflexivity.
    + lia.
    + intros i Hi. destruct (Hgo (S i) ltac:(lia)) as [soup' Hsoup'].
      exists soup'. rewrite <- Hsoup'. f_equal. lia.
    + rewrite <- Hstop. f_equal. lia.
Qed.

Lemma scrape_books_run (www : web) (fuel : nat) (is_save : bool)
    (max_pages : option Z) (s : state) (tr : list event) (books : list book) :
  while_True www fuel max_pages 1 (State (trace s ++ [EPrint Starting]) []) =
    (Ok tt, State tr books) ->
  scrape_books www fuel is_save max_pages s =
    (Ok books, State (tr ++ closing_events is_save books) books).
Proof.
  intros Hloop. unfold scrape_books, closing_events. run_py.
  rewrite Hloop. destruct is_save; simpl.
  - rewrite <- !(assoc_L (++)). reflexivity.
  - reflexivity.
Qed.

Lemma scrape_books_pages (www : web) (fuel : nat) (is_save : bool)
    (max_pages : option Z) (n : nat) (why : message) (s : state) :
  (n < fuel)%nat ->
  (forall i, (i < n)%nat ->
     exists soup, turn_of www max_pages (1 + Z.of_nat i) = Goes soup) ->
  turn_of www max_pages (1 + Z.of_nat n) = Stops why ->
  scrape_books www fuel is_save max_pages s =
  (Ok (pages_books www 1 n),
   State (trace s ++ [EPrint Starting] ++ pages_trace www 1 n ++
            stop_events max_pages (1 + Z.of_nat n) why ++
            closing_events is_save (pages_books www 1 n))
         (pages_books www 1 n)).
Proof.
  intros Hfuel Hgo Hstop.
  erewrite scrape_books_run.
  2: { rewrite (while_True_pages www max_pages n fuel 1 why); eauto. }
  simpl. rewrite <- !(assoc_L (++)). reflexivity.
Qed.

(** ** The catalog page extractor *)

Lemma omap_cons {A B} (f : A -> option B) (x : A) (l : list A) :
  omap f (x :: l) = option_list (f x) ++ omap f l.
Proof. simpl. destruct (f x); reflexivity. Qed.

Lemma length_omap_le {A B} (f : A -> option B) (l : list A) :
  (length (omap f l) <= length l)%nat.
Proof.
  induction l as [|x l IH]; [reflexivity|].
  rewrite omap_cons, length_app. destruct (f x); simpl; lia.
Qed.

Lemma length_omap_eq {A B} (f : A -> option B) (l : list A) :
  length (omap f l) = length l <-> Forall (fun x => is_Some (f x)) l.
Proof.
  induction l as [|x l IH].
  - split; [constructor|reflexivity].
  - pose proof (length_omap_le f l) as Hle.
    rewrite omap_cons, length_app, Forall_cons, <- IH.
    destruct (f x) as [y|]; simpl; split.
    + intros [= Hlen]. split; [eauto|exact Hlen].
    + intros [_ Hlen]. lia.
    + intros Hlen. lia.
    + intros [[y Hy] _]. discriminate.
Qed.

(** C3, as stated, fails: a listing with two item containers, one of them
    without a heading, yields one reference. *)
Lemma extract_refs_skips_bare_container :
  length (item_containers listing_with_bare_container) = 2%nat /\
  length (extract_refs listing_with_bare_container) = 1%nat.
Proof. split; reflexivity. Qed.

(** C3, amended: the references of a listing are those of its item containers
    whose first [h3] has a first anchor with a non-empty [href], in order; so
    there are at most as many references as containers, with equality exactly
    when every container is complete.  The loop over the containers fetches
    these references and nothing else. *)
Theorem extract_refs_complete_containers (soup : element) :
  (length (extract_refs soup) <= length (item_containers soup))%nat /\
  (length (extract_refs soup) = length (item_containers soup) <->
   Forall (fun article => is_Some (article_ref article)) (item_containers soup)) /\
  (forall (www : web) (s : state),
      for_each (item_containers soup) (scrape_article www) s =
      (Ok tt,
       State (trace s ++ flat_map (book_events www) (extract_refs soup))
             (books_list s ++ omap (item_of www) (extract_refs soup)))).
Proof.
  unfold extract_refs. split; [apply length_omap_le|].
  split; [apply length_omap_eq|].
  intros www s. apply for_each_articles_run.
Qed.

(** ** Failures of single items *)

Lemma book_events_get (www : web) (book_url : string) :
  EGet book_url ∈ book_events www book_url.
Proof. unfold book_events. set_solver. Qed.

Lemma book_events_error (www : web) (book_url : string) (e : exn) :
  detail_outcome www book_url = inl e ->
  EPrint (ErrorScraping book_url e) ∈ book_events www book_url.
Proof.
  intros Hout. unfold book_events, book_report. rewrite Hout. set_solver.
Qed.

Lemma elem_of_flat_map {A B} (f : A -> list B) (l : list A) (x : A) (y : B) :
  x ∈ l -> y ∈ f x -> y ∈ flat_map f l.
Proof.
  rewrite !list_elem_of_In, in_flat_map. eauto.
Qed.

(** C4: a detail page that fails, be it the request (an exception of
    [requests.get], a 4xx or 5xx status) or the extraction (markup the parser
    rejects), is reported with its URL, adds nothing to the list, and the
    loop goes on: the loop over the containers of a page always runs to its
    end, fetches every reference in order and keeps exactly the items that
    succeeded, and the turn of the page loop ends with exactly these items
    added and the move to the next page. *)
Theorem item_failure_is_local (www : web) (s : state) :
  (forall book_url e,
      detail_outcome www book_url = inl e ->
      scrape_book www book_url s =
      (Ok tt,
       State (trace s ++
                [EGet book_url; EPrint (ErrorScraping book_url e); ESleep])
             (books_list s))) /\
  (forall book_url e,
      www book_url = Fails e ->
      detail_outcome www book_url = inl (RequestException e)) /\
  (forall book_url r,
      www book_url = Replies r ->
      (400 <=? status_code r) && (status_code r <? 600) = true ->
      detail_outcome www book_url =
        inl (RequestException (HTTPError (status_code r)))) /\
  (forall book_url r,
      www book_url = Replies r ->
      (400 <=? status_code r) && (status_code r <? 600) = false ->
      content r = Rejected ->
      detail_outcome www book_url = inl ParserRejectedMarkup) /\
  (forall articles : list element,
      let refs := omap article_ref articles in
      exists s',
        for_each articles (scrape_article www) s = (Ok tt, s') /\
        books_list s' = books_list s ++ omap (item_of www) refs /\
        (forall book_url, book_url ∈ refs -> EGet book_url ∈ trace s') /\
        (forall book_url e,
            book_url ∈ refs ->
            detail_outcome www book_url = inl e ->
            EPrint (ErrorScraping book_url e) ∈ trace s' /\
            item_of www book_url = None)) /\
  (forall max_pages page_num soup,
      turn_of www max_pages page_num = Goes soup ->
      loop_body www max_pages page_num s =
      (Ok Continue,
       State (trace s ++ page_events www page_num soup)
             (books_list s ++ omap (item_of www) (extract_refs soup)))).
Proof.
  split; [|split; [|split; [|split; [|split]]]].
  - intros book_url e Hout. rewrite scrape_book_run.
    unfold book_events, book_report, item_of. rewrite Hout. simpl.
    rewrite (right_id_L [] (++)). reflexivity.
  - intros book_url e Hwww. unfold detail_outcome. by rewrite Hwww.
  - intros book_url r Hwww Hstatus. unfold detail_outcome.
    by rewrite Hwww, Hstatus.
  - intros book_url r Hwww Hstatus Hcontent. unfold detail_outcome.
    by rewrite Hwww, Hstatus, Hcontent.
  - intros articles refs. eexists. split; [apply for_each_articles_run|].
    simpl. split; [reflexivity|]. split.
    + intros book_url Hin. apply elem_of_app. right.
      eapply elem_of_flat_map; [exact Hin|apply book_events_get].
    + intros book_url e Hin Hout. split.
      * apply elem_of_app. right.
        eapply elem_of_flat_map; [exact Hin|by apply book_events_error].
      * unfold item_of. rewrite Hout. reflexivity.
  - intros max_pages page_num soup Hturn.
    rewrite loop_body_run, Hturn. reflexivity.
Qed.

Lemma item_failure_is_local_witness :
  scrape_book www_garbled_detail (book_url_of "a.html") initial =
  (Ok tt,
   State [EGet (book_url_of "a.html");
          EPrint (ErrorScraping (book_url_of "a.html") ParserRejectedMarkup);
          ESleep]
         []).
Proof.
  apply (proj1 (item_failure_is_local www_garbled_detail initial)
           (book_url_of "a.html") ParserRejectedMarkup).
  reflexivity.
Defined.

(** C8 does not hold of the code: the only book of [www_untitled] has a
    detail page without a heading; its record is appended and returned with a
    [None] title, and "Scraped: None" is printed for it. *)
Theorem untitled_book_is_kept :
  (exists book_data : book,
      returned (scrape_books www_untitled 2 false None initial)
        = Ok [book_data] /\
      book_data !! "title" = Some PNone) /\
  observed (scrape_books www_untitled 2 false None initial) =
    [EPrint Starting;
     EPrint (Processing 1 (catalog_url_of 1));
     EGet (catalog_url_of 1);
     EGet (book_url_of "a.html");
     EPrint (Scraped PNone);
     ESleep;
     EPrint (Processing 2 (catalog_url_of 2));
     EGet (catalog_url_of 2);
     EPrint (PageNotFound 2);
     EPrint (TotalScraped 1)].
Proof. split; [eexists; split; reflexivity|reflexivity]. Qed.

(** ** The loop as a function of the source *)

Lemma while_True_crawl_from (www : web) (max_pages : option Z) (fuel : nat) :
  forall (page_num : Z) (s : state),
    while_True www fuel max_pages page_num s =
    let '(r, tr, books) := crawl_from www fuel max_pages page_num in
    (r, State (trace s ++ tr) (books_list s ++ books)).
Proof.
  induction fuel as [|fuel IH]; intros page_num [tr0 bl0].
  - simpl. rewrite !(right_id_L [] (++)). reflexivity.
  - destruct (turn_of www max_pages page_num) as [why|soup|e] eqn:Hturn.
    + rewrite (while_True_stop _ _ _ _ _ _ Hturn). simpl. rewrite Hturn.
      simpl. rewrite (right_id_L [] (++)). reflexivity.
    + rewrite (while_True_go _ _ _ _ _ _ Hturn), IH. simpl. rewrite Hturn.
      destruct (crawl_from www fuel max_pages (page_num + 1)) as [[r tr] books].
      simpl. rewrite <- !(assoc_L (++)). reflexivity.
    + rewrite (while_True_raise _ _ _ _ _ _ Hturn). simpl. rewrite Hturn.
      simpl. rewrite (right_id_L [] (++)). reflexivity.
Qed.

Lemma crawl_from_S (www : web) (fuel : nat) (max_pages : option Z)
    (page_num : Z) :
  crawl_from www (S fuel) max_pages page_num =
  match turn_of www max_pages page_num with
  | Stops why => (Ok tt, stop_events max_pages page_num why, [])
  | Goes soup =>
      let '(r, tr, books) := crawl_from www fuel max_pages (page_num + 1) in
      (r, page_events www page_num soup ++ tr, page_items www soup ++ books)
  | Raises e => (Raise e, listing_events page_num, [])
  end.
Proof. reflexivity. Qed.



Lemma scrape_books_crawl_from (www : web) (fuel : nat) (is_save : bool)
    (max_pages : option Z) (s : state) :
  scrape_books www fuel is_save max_pages s =
  let '(r, tr, books) := crawl_from www fuel max_pages 1 in
  match r with
  | Ok _ =>
      (Ok books,
       State (trace s ++ [EPrint Starting] ++ tr ++ closing_events is_save books)
             books)
  | Raise e => (Raise e, State (trace s ++ [EPrint Starting] ++ tr) books)
  | OutOfFuel => (OutOfFuel, State (trace s ++ [EPrint Starting] ++ tr) books)
  end.
Proof.
  unfold scrape_books. run_py. rewrite while_True_crawl_from. simpl.
  destruct (crawl_from www fuel max_pages 1) as [[[[]|e|] tr] books]; simpl;
    rewrite <- ?(assoc_L (++)); try reflexivity.
  unfold closing_events. destruct is_save;
    repeat (simpl; rewrite <- ?(assoc_L (++))); reflexivity.
Qed.

Lemma count_app (p : event -> bool) (tr1 tr2 : list event) :
  count p (tr1 ++ tr2) = (count p tr1 + count p tr2)%nat.
Proof. unfold count. rewrite List.filter_app, length_app. reflexivity. Qed.

Lemma balanced_app (tr1 tr2 : list event) (books1 books2 : list book) :
  balanced tr1 books1 -> balanced tr2 books2 ->
  balanced (tr1 ++ tr2) (books1 ++ books2).
Proof.
  unfold balanced. rewrite !count_app, length_app. lia.
Qed.

Lemma balanced_book (www : web) (book_url : string) :
  balanced (book_events www book_url) (option_list (item_of www book_url)).
Proof.
  unfold book_events, book_report, item_of.
  destruct (detail_outcome www book_url); repeat split.
Qed.

Lemma balanced_refs (www : web) (refs : list string) :
  balanced (flat_map (book_events www) refs) (omap (item_of www) refs).
Proof.
  induction refs as [|book_url refs IH]; [repeat split|].
  rewrite omap_cons.
  change (flat_map (book_events www) (book_url :: refs))
    with (book_events www book_url ++ flat_map (book_events www) refs).
  apply balanced_app; [apply balanced_book|exact IH].
Qed.

Lemma turn_of_stop_cases (www : web) (max_pages : option Z) (page_num : Z)
    (why : message) :
  turn_of www max_pages page_num = Stops why ->
  (exists m, reached_limit max_pages page_num = Some m /\ why = ReachedLimit m) \/
  (reached_limit max_pages page_num = None /\
   (why = PageNotFound page_num \/ why = NoBooksFound page_num \/
    exists e, why = ErrorRequesting page_num (RequestException e))).
Proof.
  unfold turn_of. destruct (reached_limit max_pages page_num) as [m|].
  - intros [= <-]. left. eauto.
  - intros Heq. right. split; [reflexivity|].
    destruct (fetch_listing www page_num); simplify_eq; eauto.
Qed.

Lemma balanced_stop (www : web) (max_pages : option Z) (page_num : Z)
    (why : message) :
  turn_of www max_pages page_num = Stops why ->
  balanced (stop_events max_pages page_num why) [].
Proof.
  intros Hturn. unfold stop_events.
  destruct (turn_of_stop_cases _ _ _ _ Hturn)
    as [(m & -> & ->)|(-> & [->|[->|[e ->]]])]; repeat split.
Qed.

Lemma balanced_page (www : web) (page_num : Z) (soup : element) :
  balanced (page_events www page_num soup) (page_items www soup).
Proof.
  unfold page_events, page_items.
  apply (balanced_app _ _ []); [repeat split|apply balanced_refs].
Qed.

Lemma balanced_crawl_from (www : web) (max_pages : option Z) (fuel : nat) :
  forall page_num : Z,
    balanced (crawl_from www fuel max_pages page_num).1.2
             (crawl_from www fuel max_pages page_num).2.
Proof.
  induction fuel as [|fuel IH]; intros page_num; [repeat split|].
  rewrite crawl_from_S.
  destruct (turn_of www max_pages page_num) as [why|soup|e] eqn:Hturn.
  - by eapply balanced_stop.
  - specialize (IH (page_num + 1)).
    destruct (crawl_from www fuel max_pages (page_num + 1)) as [[r tr] books].
    apply balanced_app; [apply balanced_page|exact IH].
  - repeat split.
Qed.

(** ** Termination of the crawl *)

Lemma fetch_listing_ok (www : web) (page_num status : Z) (nodes : list node) :
  www (catalog_url_of page_num) = page status nodes ->
  200 <= status < 300 ->
  (0 < length (item_containers (root nodes)))%nat ->
  fetch_listing www page_num = Items (root nodes).
Proof.
  intros Hwww Hstatus Hitems. unfold fetch_listing. rewrite Hwww. simpl.
  destruct (Z.eqb_spec status 404) as [?|_]; [lia|].
  destruct (Z.leb_spec 400 status); [lia|]. simpl.
  destruct (item_containers _); [simpl in Hitems; lia|reflexivity].
Qed.

Lemma fetch_listing_404 (www : web) (page_num : Z) (r : response) :
  www (catalog_url_of page_num) = Replies r ->
  status_code r = 404 ->
  fetch_listing www page_num = NotFound.
Proof.
  intros Hwww Hstatus. unfold fetch_listing. rewrite Hwww, Hstatus.
  reflexivity.
Qed.


Lemma turn_of_go (www : web) (max_pages : option Z) (page_num : Z)
    (soup : element) :
  reached_limit max_pages page_num = None ->
  fetch_listing www page_num = Items soup ->
  turn_of www max_pages page_num = Goes soup.
Proof. intros Hlimit Hfetch. unfold turn_of. by rewrite Hlimit, Hfetch. Qed.

(** C6: when listing pages 1 and 2 answer 2xx with item containers and
    page 3 answers 404, the unbounded crawl returns, with any fuel of at
    least three turns, the items of page 1 followed by those of page 2, and
    the last thing it did in the loop was to report page 3 as not found. *)
Theorem crawl_two_pages_then_404 (www : web) (fuel : nat) (is_save : bool)
    (s : state) (status1 status2 : Z) (nodes1 nodes2 : list node)
    (r3 : response) :
  www (catalog_url_of 1) = page status1 nodes1 ->
  200 <= status1 < 300 ->
  (0 < length (item_containers (root nodes1)))%nat ->
  www (catalog_url_of 2) = page status2 nodes2 ->
  200 <= status2 < 300 ->
  (0 < length (item_containers (root nodes2)))%nat ->
  www (catalog_url_of 3) = Replies r3 ->
  status_code r3 = 404 ->
  (3 <= fuel)%nat ->
  let items := page_items www (root nodes1) ++ page_items www (root nodes2) in
  let run := scrape_books www fuel is_save None s in
  returned run = Ok items /\
  exists before,
    observed run =
    before ++ [EGet (catalog_url_of 3); EPrint (PageNotFound 3)] ++
    closing_events is_save items.
Proof.
  intros Hw1 Hs1 Hi1 Hw2 Hs2 Hi2 Hw3 Hs3 Hfuel items run.
  pose proof (fetch_listing_ok _ _ _ _ Hw1 Hs1 Hi1) as H1.
  pose proof (fetch_listing_ok _ _ _ _ Hw2 Hs2 Hi2) as H2.
  pose proof (fetch_listing_404 _ _ _ Hw3 Hs3) as H3.
  assert (Hrun : run = scrape_books www fuel is_save None s) by reflexivity.
  rewrite (scrape_books_pages www fuel is_save None 2 (PageNotFound 3)) in Hrun.
  - assert (Hbooks : pages_books www 1 2 = items).
    { simpl. unfold page_books. rewrite H1. change (1 + 1) with 2.
      rewrite H2. rewrite (right_id_L [] (++)). reflexivity. }
    rewrite Hbooks in Hrun. rewrite Hrun. split; [reflexivity|].
    exists (trace s ++ [EPrint Starting] ++ pages_trace www 1 2 ++
            [EPrint (Processing 3 (catalog_url_of 3))]).
    unfold observed, stop_events, listing_events.
    generalize (pages_trace www 1 2). intros pages.
    repeat (simpl; rewrite <- ?(assoc_L (++))). reflexivity.
  - lia.
  - intros i Hi. assert (i = 0 \/ i = 1)%nat as [-> | ->] by lia.
    + exists (root nodes1). by apply turn_of_go.
    + exists (root nodes2). by apply turn_of_go.
  - unfold turn_of. change (1 + Z.of_nat 2) with 3. by rewrite H3.
Qed.

Lemma crawl_two_pages_then_404_witness :
  let items :=
    page_items www_two_pages (root [container "a.html"; container "b.html"]) ++
    page_items www_two_pages (root [container "c.html"]) in
  let run := scrape_books www_two_pages 3 true None initial in
  returned run = Ok items /\
  exists before,
    observed run =
    before ++ [EGet (catalog_url_of 3); EPrint (PageNotFound 3)] ++
    closing_events true items.
Proof.
  apply (crawl_two_pages_then_404 www_two_pages 3 true initial
           200 200 [container "a.html"; container "b.html"]
           [container "c.html"] (Response 404 (Parsed [])));
    try reflexivity; try (vm_compute; lia); simpl; lia.
Defined.




(** ** The bound and the fatal failure *)

Lemma while_True_zero (www : web) (fuel : nat) :
  forall (page_num : Z) (s : state),
    while_True www fuel (Some 0) page_num s =
    while_True www fuel None page_num s.
Proof.
  induction fuel as [|fuel IH]; intros page_num s; [reflexivity|].
  simpl. rewrite !bind_run.
  change (loop_body www (Some 0) page_num) with (loop_body www None page_num).
  destruct (loop_body www None page_num s) as [[[]|e|] s'];
    [reflexivity|apply IH|reflexivity..].
Qed.

(** C2 does not hold of the code: [max_pages = 0] is false in the bound
    check, so the crawl runs as if no bound were given.  On [www_end] it
    fetches listing page 1, the book and listing page 2, and returns one
    item. *)
Theorem max_pages_zero_is_unbounded :
  (forall (www : web) (fuel : nat) (is_save : bool) (s : state),
      scrape_books www fuel is_save (Some 0) s =
      scrape_books www fuel is_save None s) /\
  returned (scrape_books www_end 3 false (Some 0) initial) =
    Ok [extract_item (root (titled "A"))] /\
  observed (scrape_books www_end 3 false (Some 0) initial) =
    [EPrint Starting;
     EPrint (Processing 1 (catalog_url_of 1));
     EGet (catalog_url_of 1);
     EGet (book_url_of "a.html");
     EPrint (Scraped (PStr "A"));
     ESleep;
     EPrint (Processing 2 (catalog_url_of 2));
     EGet (catalog_url_of 2);
     EPrint (PageNotFound 2);
     EPrint (TotalScraped 1)].
Proof.
  split; [|split; reflexivity].
  intros www fuel is_save s. unfold scrape_books.
  rewrite !bind_run. destruct (set_books_list [] s) as [[[]|e|] s1]; try reflexivity.
  rewrite !bind_run. destruct (print Starting s1) as [[[]|e|] s2]; try reflexivity.
  rewrite !bind_run, while_True_zero. reflexivity.
Qed.

(** C1 does not hold of the code: the fetch of listing page 2 of [www_down]
    fails with a connection error, and [scrape_books] catches the exception,
    prints "Error requesting page 2" and returns the item of page 1 as an
    ordinary result.  No exception reaches the caller, and the value returned
    is the one returned for [www_end], whose page 2 answers 404. *)
Theorem listing_failure_returns_normally :
  fetch_listing www_down 2 =
    TransportError (ConnectionError "connection refused") /\
  scrape_books www_down 3 false None initial =
    (Ok [extract_item (root (titled "A"))],
     State [EPrint Starting;
            EPrint (Processing 1 (catalog_url_of 1));
            EGet (catalog_url_of 1);
            EGet (book_url_of "a.html");
            EPrint (Scraped (PStr "A"));
            ESleep;
            EPrint (Processing 2 (catalog_url_of 2));
            EGet (catalog_url_of 2);
            EPrint (ErrorRequesting 2
                      (RequestException
                         (ConnectionError "connection refused")));
            EPrint (TotalScraped 1)]
           [extract_item (root (titled "A"))]) /\
  returned (scrape_books www_down 3 false None initial) =
    returned (scrape_books www_end 3 false None initial).
Proof. repeat split. Qed.

(** * Further properties of [scrape_books] and [get_book_data] *)

(** ** What the loop can do *)

Lemma catalog_url_under_catalogue (page_num : Z) :
  exists rest, catalog_url_of page_num = catalogue +:+ rest.
Proof. exists ("page-" +:+ pretty page_num +:+ ".html"). reflexivity. Qed.

Lemma article_ref_under_catalogue (article : element) (book_url : string) :
  article_ref article = Some book_url ->
  exists href, href <> "" /\ book_url = catalogue +:+ href.
Proof.
  unfold article_ref.
  destruct (find (ByName "h3") article) as [h3_tag|]; simpl; [|discriminate].
  destruct (find (ByName "a") h3_tag) as [a_tag|]; simpl; [|discriminate].
  destruct (get "href" a_tag) as [href|]; simpl; [|discriminate].
  destruct href as [|c href]; [discriminate|].
  intros [= <-]. exists (String c href). split; [discriminate|reflexivity].
Qed.

Lemma extract_refs_under_catalogue (soup : element) :
  Forall (fun book_url => exists rest, book_url = catalogue +:+ rest)
         (extract_refs soup).
Proof.
  apply Forall_forall. intros book_url Hin.
  apply list_elem_of_omap in Hin as (article & _ & Href).
  destruct (article_ref_under_catalogue _ _ Href) as (href & _ & ->). eauto.
Qed.

Lemma loop_event_refs (www : web) (refs : list string) :
  Forall (fun book_url => exists rest, book_url = catalogue +:+ rest) refs ->
  Forall loop_event (flat_map (book_events www) refs).
Proof.
  induction 1 as [|book_url refs Hurl _ IH]; [constructor|].
  change (flat_map (book_events www) (book_url :: refs))
    with (book_events www book_url ++ flat_map (book_events www) refs).
  apply Forall_app. split; [|exact IH].
  unfold book_events, book_report.
  repeat constructor; [exact Hurl|].
  destruct (detail_outcome www book_url); exact I.
Qed.

Lemma loop_event_listing (page_num : Z) :
  Forall loop_event (listing_events page_num).
Proof.
  unfold listing_events. repeat constructor. apply catalog_url_under_catalogue.
Qed.

Lemma loop_event_stop (www : web) (max_pages : option Z) (page_num : Z)
    (why : message) :
  turn_of www max_pages page_num = Stops why ->
  Forall loop_event (stop_events max_pages page_num why).
Proof.
  intros Hturn. unfold stop_events.
  destruct (turn_of_stop_cases _ _ _ _ Hturn)
    as [(m & -> & ->)|(-> & Hwhy)]; [repeat constructor|].
  apply Forall_app. split; [apply loop_event_listing|].
  destruct Hwhy as [->|[->|[e ->]]]; repeat constructor.
Qed.

Lemma loop_event_crawl_from (www : web) (max_pages : option Z) (fuel : nat) :
  forall page_num : Z,
    Forall loop_event (crawl_from www fuel max_pages page_num).1.2.
Proof.
  induction fuel as [|fuel IH]; intros page_num; [constructor|].
  rewrite crawl_from_S.
  destruct (turn_of www max_pages page_num) as [why|soup|e] eqn:Hturn.
  - by eapply loop_event_stop.
  - specialize (IH (page_num + 1)).
    destruct (crawl_from www fuel max_pages (page_num + 1)) as [[r tr] books].
    apply Forall_app. split; [|exact IH].
    unfold page_events. apply Forall_app.
    split; [apply loop_event_listing|].
    apply loop_event_refs, extract_refs_under_catalogue.
  - apply loop_event_listing.
Qed.

Lemma loop_event_no_dump (tr : list event) :
  Forall loop_event tr -> count is_dump tr = 0%nat.
Proof.
  induction 1 as [|ev tr Hev _ IH]; [reflexivity|].
  change (ev :: tr) with ([ev] ++ tr). rewrite count_app, IH.
  destruct ev as [| | |file books]; [reflexivity..|destruct Hev].
Qed.




(** X2: every call starts afresh.  What [scrape_books] returns and the list
    it leaves in [books_list] do not depend on what was observed or collected
    before the call, and what it does is appended to what was observed.  In
    particular a second call right after a first one, whatever the first
    one's arguments, returns what it would have returned alone: nothing
    accumulates from run to run. *)
Theorem scrape_books_starts_afresh (www : web) (fuel : nat) (is_save : bool)
    (max_pages : option Z) (s : state) :
  let run := scrape_books www fuel is_save max_pages s in
  let fresh := scrape_books www fuel is_save max_pages initial in
  returned run = returned fresh /\
  books_list run.2 = books_list fresh.2 /\
  observed run = trace s ++ observed fresh /\
  (forall fuel0 is_save0 max_pages0,
      let first := scrape_books www fuel0 is_save0 max_pages0 s in
      returned (scrape_books www fuel is_save max_pages first.2) =
      returned fresh).
Proof.
  simpl. rewrite !scrape_books_crawl_from.
  assert (Hfresh : forall s0,
            returned (scrape_books www fuel is_save max_pages s0) =
            returned (scrape_books www fuel is_save max_pages initial)).
  { intros s0. rewrite !scrape_books_crawl_from.
    destruct (crawl_from www fuel max_pages 1) as [[[[]|e|] tr] books];
      reflexivity. }
  split; [|split; [|split]].
  - destruct (crawl_from www fuel max_pages 1) as [[[[]|e|] tr] books];
      reflexivity.
  - destruct (crawl_from www fuel max_pages 1) as [[[[]|e|] tr] books];
      reflexivity.
  - destruct (crawl_from www fuel max_pages 1) as [[[[]|e|] tr] books];
      reflexivity.
  - intros fuel0 is_save0 max_pages0.
    rewrite Hfresh, scrape_books_crawl_from. reflexivity.
Qed.

(** X3: the numbers of a run agree, finished or not.  There are as many
    GETs as "Processing page" lines and pauses together, as many pauses as
    "Scraped" and "Error scraping" lines together, and as many records in
    the list as "Scraped" lines. *)
Theorem requests_are_accounted_for (www : web) (fuel : nat) (is_save : bool)
    (max_pages : option Z) :
  let run := scrape_books www fuel is_save max_pages initial in
  count is_get (observed run) =
    (count is_processing (observed run) + count is_sleep (observed run))%nat /\
  count is_sleep (observed run) =
    (count is_scraped (observed run) +
     count is_error_scraping (observed run))%nat /\
  length (books_list run.2) = count is_scraped (observed run).
Proof.
  simpl. rewrite scrape_books_crawl_from.
  pose proof (balanced_crawl_from www max_pages fuel 1) as Hbal.
  destruct (crawl_from www fuel max_pages 1) as [[r tr] books].
  simpl in Hbal.
  assert (Hopen : balanced [EPrint Starting] []) by repeat split.
  assert (Hclose : balanced (closing_events is_save books) []).
  { unfold closing_events. destruct is_save; repeat split. }
  pose proof (balanced_app _ _ _ _ Hopen Hbal) as Hrun.
  pose proof (balanced_app _ _ _ _ Hrun Hclose) as Hdone.
  rewrite (right_id_L [] (++)) in Hdone.
  destruct r as [[]|e|]; unfold observed; simpl.
  - rewrite <- (assoc_L (++)) in Hdone. exact Hdone.
  - exact Hrun.
  - exact Hrun.
Qed.

Lemma article_ref_source (article : element) (book_url : string) :
  article_ref article = Some book_url ->
  exists h3_tag a_tag href,
    find (ByName "h3") article = Some h3_tag /\
    find (ByName "a") h3_tag = Some a_tag /\
    get "href" a_tag = Some href /\
    href <> "" /\
    book_url = catalogue +:+ href.
Proof.
  unfold article_ref.
  destruct (find (ByName "h3") article) as [h3_tag|]; simpl; [|discriminate].
  destruct (find (ByName "a") h3_tag) as [a_tag|] eqn:Ha; simpl;
    [|discriminate].
  destruct (get "href" a_tag) as [href|] eqn:Hhref; simpl; [|discriminate].
  destruct href as [|c href]; [discriminate|].
  intros [= <-]. exists h3_tag, a_tag, (String c href).
  repeat split; [exact Ha|exact Hhref|discriminate].
Qed.

Lemma get_in_listing_events (page_num : Z) (url : string) :
  EGet url ∈ listing_events page_num -> url = catalog_url_of page_num.
Proof.
  unfold listing_events. intros Hin.
  apply elem_of_cons in Hin as [Heq|Hin]; [discriminate|].
  apply elem_of_cons in Hin as [Heq|Hin]; [congruence|].
  by apply elem_of_nil in Hin.
Qed.

Lemma get_in_stop_events (max_pages : option Z) (page_num : Z) (why : message)
    (url : string) :
  EGet url ∈ stop_events max_pages page_num why ->
  url = catalog_url_of page_num.
Proof.
  unfold stop_events. destruct (reached_limit max_pages page_num).
  - intros Hin. apply elem_of_cons in Hin as [Heq|Hin]; [discriminate|].
    by apply elem_of_nil in Hin.
  - intros Hin. apply elem_of_app in Hin as [Hin|Hin].
    + by apply get_in_listing_events.
    + apply elem_of_cons in Hin as [Heq|Hin]; [discriminate|].
      by apply elem_of_nil in Hin.
Qed.

Lemma get_in_book_events (www : web) (refs : list string) (url : string) :
  EGet url ∈ flat_map (book_events www) refs -> url ∈ refs.
Proof.
  induction refs as [|book_url refs IH]; [by intros ?%elem_of_nil|].
  change (flat_map (book_events www) (book_url :: refs))
    with (book_events www book_url ++ flat_map (book_events www) refs).
  intros Hin. apply elem_of_app in Hin as [Hin|Hin].
  - unfold book_events in Hin.
    apply elem_of_cons in Hin as [Heq|Hin];
      [injection Heq as ->; apply list_elem_of_here|].
    apply elem_of_cons in Hin as [Heq|Hin]; [discriminate|].
    apply elem_of_cons in Hin as [Heq|Hin]; [discriminate|].
    by apply elem_of_nil in Hin.
  - apply list_elem_of_further. by apply IH.
Qed.

(** Every request of the loop is the fetch of a listing page, or of a
    reference found on a listing page the source serves. *)
Lemma crawl_from_requests (www : web) (max_pages : option Z) (fuel : nat) :
  forall (page_num : Z) (url : string),
    1 <= page_num ->
    EGet url ∈ (crawl_from www fuel max_pages page_num).1.2 ->
    (exists p, 1 <= p /\ url = catalog_url_of p) \/
    (exists p soup article,
        1 <= p /\
        fetch_listing www p = Items soup /\
        article ∈ item_containers soup /\
        article_ref article = Some url).
Proof.
  induction fuel as [|fuel IH]; intros page_num url Hpage;
    [by intros ?%elem_of_nil|].
  rewrite crawl_from_S.
  destruct (turn_of www max_pages page_num) as [why|soup|e] eqn:Hturn.
  - cbn [fst snd]. intros Hin%get_in_stop_events. left. eauto.
  - specialize (IH (page_num + 1) url ltac:(lia)).
    destruct (crawl_from www fuel max_pages (page_num + 1)) as [[r tr] books].
    cbn [fst snd] in *. intros Hin.
    apply elem_of_app in Hin as [Hin|Hin]; [|by apply IH].
    unfold page_events in Hin. apply elem_of_app in Hin as [Hin|Hin].
    + apply get_in_listing_events in Hin. left. eauto.
    + apply get_in_book_events in Hin. unfold extract_refs in Hin.
      apply list_elem_of_omap in Hin as (article & Harticle & Href).
      right. exists page_num, soup, article.
      repeat split; [exact Hpage|by eapply turn_of_Items|exact Harticle
                    |exact Href].
  - cbn [fst snd]. intros Hin%get_in_listing_events. left. eauto.
Qed.

(** X4: the scraper requests nothing but listing pages and the references
    written on them.  Every URL it requests is either the address of a
    listing page n >= 1, or "http://books.toscrape.com/catalogue/" followed
    by the non-empty [href] of the first anchor under the first [h3] of an
    item container of a listing page the source serves; the [href] is
    appended as written, never resolved or followed elsewhere. *)
Theorem requests_stay_under_catalogue (www : web) (fuel : nat)
    (is_save : bool) (max_pages : option Z) (url : string) :
  EGet url ∈ observed (scrape_books www fuel is_save max_pages initial) ->
  (exists page_num,
      1 <= page_num /\
      url = catalogue +:+ "page-" +:+ pretty page_num +:+ ".html") \/
  (exists page_num soup article h3_tag a_tag href,
      1 <= page_num /\
      fetch_listing www page_num = Items soup /\
      article ∈ item_containers soup /\
      find (ByName "h3") article = Some h3_tag /\
      find (ByName "a") h3_tag = Some a_tag /\
      get "href" a_tag = Some href /\
      href <> "" /\
      url = catalogue +:+ href).
Proof.
  rewrite scrape_books_crawl_from.
  pose proof (crawl_from_requests www max_pages fuel 1 url ltac:(lia)) as Hloop.
  destruct (crawl_from www fuel max_pages 1) as [[r tr] books].
  cbn [fst snd] in Hloop.
  assert (Hget : EGet url ∈ tr ->
            (exists page_num,
                1 <= page_num /\
                url = catalogue +:+ "page-" +:+ pretty page_num +:+ ".html") \/
            (exists page_num soup article h3_tag a_tag href,
                1 <= page_num /\
                fetch_listing www page_num = Items soup /\
                article ∈ item_containers soup /\
                find (ByName "h3") article = Some h3_tag /\
                find (ByName "a") h3_tag = Some a_tag /\
                get "href" a_tag = Some href /\
                href <> "" /\
                url = catalogue +:+ href)).
  { intros Hin.
    destruct (Hloop Hin) as [(p & Hp & ->)|(p & soup & article & Hp & Hfetch
                                            & Harticle & Href)].
    - left. exists p. split; [exact Hp|reflexivity].
    - destruct (article_ref_source _ _ Href)
        as (h3_tag & a_tag & href & Hh3 & Ha & Hhref & Hne & ->).
      right. exists p, soup, article, h3_tag, a_tag, href. by repeat split. }
  unfold observed.
  destruct r as [[]|e|]; simpl; intros Hin;
    apply elem_of_cons in Hin as [Heq|Hin]; try discriminate;
    try (exact (Hget Hin)).
  apply elem_of_app in Hin as [Hin|Hin]; [exact (Hget Hin)|].
  unfold closing_events in Hin.
  destruct is_save;
    repeat (apply elem_of_cons in Hin as [Heq|Hin]; [discriminate|]);
    by apply elem_of_nil in Hin.
Qed.

Lemma requests_stay_under_catalogue_witness :
  (exists page_num,
      1 <= page_num /\
      book_url_of "b.html" =
        catalogue +:+ "page-" +:+ pretty page_num +:+ ".html") \/
  (exists page_num soup article h3_tag a_tag href,
      1 <= page_num /\
      fetch_listing www_two_pages page_num = Items soup /\
      article ∈ item_containers soup /\
      find (ByName "h3") article = Some h3_tag /\
      find (ByName "a") h3_tag = Some a_tag /\
      get "href" a_tag = Some href /\
      href <> "" /\
      book_url_of "b.html" = catalogue +:+ href).
Proof.
  apply (requests_stay_under_catalogue www_two_pages 3 false None).
  apply list_elem_of_In. vm_compute. tauto.
Defined.

(** X5: the file is written last, once, and only by a finished run asked to
    save.  A run with [is_save] false writes nothing; a run with [is_save]
    true that returns a list ends with the dump of exactly that list to
    "books_data.txt" and writes nothing before it; a run that has not
    returned has written nothing. *)
Theorem dump_is_last_and_only (www : web) (fuel : nat) (is_save : bool)
    (max_pages : option Z) :
  let run := scrape_books www fuel is_save max_pages initial in
  (is_save = false -> count is_dump (observed run) = 0%nat) /\
  (forall books,
      is_save = true -> returned run = Ok books ->
      exists before,
        observed run = before ++ [EDump "books_data.txt" books] /\
        count is_dump before = 0%nat) /\
  ((forall books, returned run <> Ok books) ->
   count is_dump (observed run) = 0%nat).
Proof.
  simpl. rewrite scrape_books_crawl_from.
  pose proof (loop_event_crawl_from www max_pages fuel 1) as Hloop.
  destruct (crawl_from www fuel max_pages 1) as [[r tr] books].
  simpl in Hloop. apply loop_event_no_dump in Hloop.
  unfold closing_events, observed, returned.
  split; [|split].
  - intros ->. destruct r as [[]|e|]; simpl;
      change (EPrint Starting :: ?l) with ([EPrint Starting] ++ l);
      rewrite !count_app, Hloop; reflexivity.
  - intros books' -> Hret. destruct r as [[]|e|]; simpl in *; try discriminate.
    injection Hret as <-.
    exists (EPrint Starting :: tr ++ [EPrint (TotalScraped (length books))]).
    split.
    + simpl. rewrite <- (assoc_L (++)). reflexivity.
    + change (EPrint Starting :: ?l) with ([EPrint Starting] ++ l).
      rewrite !count_app, Hloop. reflexivity.
  - intros Hnot. destruct r as [[]|e|]; simpl in *.
    + destruct (Hnot books). reflexivity.
    + change (EPrint Starting :: ?l) with ([EPrint Starting] ++ l).
      rewrite !count_app, Hloop. reflexivity.
    + change (EPrint Starting :: ?l) with ([EPrint Starting] ++ l).
      rewrite !count_app, Hloop. reflexivity.
Qed.

(** ** The bound *)

Lemma reached_limit_Some (m page_num : Z) :
  m <> 0 -> m < page_num -> reached_limit (Some m) page_num = Some m.
Proof.
  intros Hm Hlt. unfold reached_limit, truthy_int.
  destruct (Z.eqb_spec m 0) as [?|_]; [lia|].
  destruct (Z.gtb_spec page_num m); [reflexivity|lia].
Qed.


(** X6: a negative bound stops the crawl before anything is fetched.  The
    result is the empty list, the only lines printed are the opening line,
    "Reached maximum pages limit" and the total, and with [is_save] an empty
    list is written. *)
Theorem negative_bound_fetches_nothing (www : web) (fuel : nat)
    (is_save : bool) (m : Z) (s : state) :
  m < 0 ->
  (0 < fuel)%nat ->
  scrape_books www fuel is_save (Some m) s =
  (Ok [],
   State (trace s ++
            [EPrint Starting; EPrint (ReachedLimit m); EPrint (TotalScraped 0)] ++
            (if is_save then [EDump "books_data.txt" []] else []))
         []).
Proof.
  intros Hm Hfuel.
  rewrite (scrape_books_pages www fuel is_save (Some m) 0 (ReachedLimit m)).
  - unfold stop_events. change (1 + Z.of_nat 0) with 1.
    rewrite reached_limit_Some by lia. reflexivity.
  - exact Hfuel.
  - intros i Hi. lia.
  - unfold turn_of. change (1 + Z.of_nat 0) with 1.
    rewrite reached_limit_Some by lia. reflexivity.
Qed.

Lemma negative_bound_fetches_nothing_witness :
  scrape_books www_two_pages 1 true (Some (-1)) initial =
  (Ok [],
   State [EPrint Starting; EPrint (ReachedLimit (-1)); EPrint (TotalScraped 0);
          EDump "books_data.txt" []]
         []).
Proof.
  apply (negative_bound_fetches_nothing www_two_pages 1 true (-1) initial); lia.
Defined.









(** ** The shape of the result *)

Lemma crawl_from_Ok (www : web) (max_pages : option Z) (fuel : nat) :
  forall page_num : Z,
    (crawl_from www fuel max_pages page_num).1.1 = Ok tt ->
    exists n : nat,
      (n < fuel)%nat /\
      (crawl_from www fuel max_pages page_num).2 = pages_books www page_num n /\
      (forall i, (i < n)%nat ->
         exists soup,
           turn_of www max_pages (page_num + Z.of_nat i) = Goes soup) /\
      (exists why, turn_of www max_pages (page_num + Z.of_nat n) = Stops why).
Proof.
  induction fuel as [|fuel IH]; intros page_num; [discriminate|].
  rewrite crawl_from_S.
  destruct (turn_of www max_pages page_num) as [why|soup|e] eqn:Hturn;
    [| |discriminate].
  - intros _. exists 0%nat. rewrite Z.add_0_r.
    split; [lia|]. split; [reflexivity|]. split; [intros; lia|eauto].
  - specialize (IH (page_num + 1)).
    destruct (crawl_from www fuel max_pages (page_num + 1)) as [[r tr] books].
    cbn [fst snd] in *. intros Hok.
    destruct (IH Hok) as (n & Hn & -> & Hgo & why & Hstop).
    exists (S n). split; [lia|]. split; [|split].
    + simpl. unfold page_books. rewrite (turn_of_Items _ _ _ _ Hturn).
      reflexivity.
    + intros [|i] Hi.
      * exists soup. rewrite Z.add_0_r. exact Hturn.
      * destruct (Hgo i ltac:(lia)) as [soup' Hsoup'].
        exists soup'. rewrite <- Hsoup'. f_equal. lia.
    + exists why. rewrite <- Hstop. f_equal. lia.
Qed.

(** X9: whatever [scrape_books] returns is the items of listing pages 1..n,
    page after page and in listing order, for the first page n+1 at which
    the loop stops; no page before it is skipped and none after it is
    fetched into the result. *)
Theorem result_is_initial_pages (www : web) (fuel : nat) (is_save : bool)
    (max_pages : option Z) (s : state) (books : list book) :
  returned (scrape_books www fuel is_save max_pages s) = Ok books ->
  exists n : nat,
    (n < fuel)%nat /\
    books = pages_books www 1 n /\
    (forall i, (i < n)%nat ->
       exists soup, fetch_listing www (1 + Z.of_nat i) = Items soup /\
                    reached_limit max_pages (1 + Z.of_nat i) = None) /\
    (exists why, turn_of www max_pages (1 + Z.of_nat n) = Stops why).
Proof.
  rewrite scrape_books_crawl_from.
  pose proof (crawl_from_Ok www max_pages fuel 1) as Hshape.
  destruct (crawl_from www fuel max_pages 1) as [[[[]|e|] tr] l];
    simpl; [|discriminate..].
  intros [= <-].
  destruct (Hshape eq_refl) as (n & Hn & Hl & Hgo & Hstop).
  exists n. split; [exact Hn|]. split; [exact Hl|]. split; [|exact Hstop].
  intros i Hi. destruct (Hgo i Hi) as [soup Hsoup].
  exists soup. split; [by eapply turn_of_Items|].
  unfold turn_of in Hsoup.
  destruct (reached_limit max_pages (1 + Z.of_nat i)); [discriminate|reflexivity].
Qed.

Lemma result_is_initial_pages_witness :
  exists n : nat,
    (n < 3)%nat /\
    [extract_item (root (titled "A"));
     extract_item (root (titled "C"))] = pages_books www_two_pages 1 n /\
    (forall i, (i < n)%nat ->
       exists soup, fetch_listing www_two_pages (1 + Z.of_nat i) = Items soup /\
                    reached_limit None (1 + Z.of_nat i) = None) /\
    (exists why, turn_of www_two_pages None (1 + Z.of_nat n) = Stops why).
Proof.
  apply (result_is_initial_pages www_two_pages 3 true None initial).
  reflexivity.
Defined.

Lemma crawl_from_trace (www : web) (max_pages : option Z) (fuel : nat) :
  forall page_num : Z,
    (crawl_from www fuel max_pages page_num).1.1 = Ok tt ->
    exists (n : nat) (why : message),
      (n < fuel)%nat /\
      turn_of www max_pages (page_num + Z.of_nat n) = Stops why /\
      (crawl_from www fuel max_pages page_num).1.2 =
        pages_trace www page_num n ++
        stop_events max_pages (page_num + Z.of_nat n) why /\
      (crawl_from www fuel max_pages page_num).2 = pages_books www page_num n.
Proof.
  induction fuel as [|fuel IH]; intros page_num; [discriminate|].
  rewrite crawl_from_S.
  destruct (turn_of www max_pages page_num) as [why|soup|e] eqn:Hturn;
    [| |discriminate].
  - intros _. exists 0%nat, why. rewrite Z.add_0_r.
    split; [lia|]. split; [exact Hturn|]. split; reflexivity.
  - specialize (IH (page_num + 1)).
    destruct (crawl_from www fuel max_pages (page_num + 1)) as [[r tr] books].
    cbn [fst snd] in *. intros Hok.
    destruct (IH Hok) as (n & why & Hn & Hstop & -> & ->).
    exists (S n), why. split; [lia|].
    replace (page_num + Z.of_nat (S n)) with (page_num + 1 + Z.of_nat n) by lia.
    split; [exact Hstop|].
    simpl. unfold page_trace, page_books.
    rewrite (turn_of_Items _ _ _ _ Hturn), <- (assoc_L (++)).
    split; reflexivity.
Qed.

(** X15: the crawl is strictly sequential.  What a finished run did is, in
    this order: the opening line; for each listing page 1..n the "Processing
    page" line, the GET of the listing, then for each of its references in
    listing order the GET of the detail page, its "Scraped" or "Error
    scraping" line and the pause; the events of the turn that stopped the
    loop; the total and, if asked, the dump.  The returned list is the items
    of the same pages. *)
Theorem crawl_is_sequential (www : web) (fuel : nat) (is_save : bool)
    (max_pages : option Z) (s : state) (books : list book) :
  returned (scrape_books www fuel is_save max_pages s) = Ok books ->
  exists (n : nat) (why : message),
    turn_of www max_pages (1 + Z.of_nat n) = Stops why /\
    observed (scrape_books www fuel is_save max_pages s) =
      trace s ++ [EPrint Starting] ++ pages_trace www 1 n ++
      stop_events max_pages (1 + Z.of_nat n) why ++
      closing_events is_save books /\
    books = pages_books www 1 n.
Proof.
  rewrite scrape_books_crawl_from.
  pose proof (crawl_from_trace www max_pages fuel 1) as Hshape.
  destruct (crawl_from www fuel max_pages 1) as [[[[]|e|] tr] l];
    simpl; [|discriminate..].
  intros [= <-].
  destruct (Hshape eq_refl) as (n & why & _ & Hstop & Htr & Hl).
  simpl in Htr, Hl. subst tr l.
  exists n, why. split; [exact Hstop|]. split; [|reflexivity].
  unfold observed. simpl. rewrite <- !(assoc_L (++)). reflexivity.
Qed.

Lemma crawl_is_sequential_witness :
  exists (n : nat) (why : message),
    turn_of www_two_pages (Some 1) (1 + Z.of_nat n) = Stops why /\
    observed (scrape_books www_two_pages 2 false (Some 1) initial) =
      trace initial ++ [EPrint Starting] ++ pages_trace www_two_pages 1 n ++
      stop_events (Some 1) (1 + Z.of_nat n) why ++
      closing_events false [extract_item (root (titled "A"))] /\
    [extract_item (root (titled "A"))] = pages_books www_two_pages 1 n.
Proof.
  apply (crawl_is_sequential www_two_pages 2 false (Some 1) initial).
  reflexivity.
Defined.

(** X10: a listing page without item containers ends the crawl like a 404
    does.  When pages 1..n have been gone through and page n+1 answers 404
    or has no item container, [scrape_books] returns the items of pages
    1..n and requests nothing after page n+1. *)
Theorem end_of_catalog_stops_crawl (www : web) (fuel : nat) (is_save : bool)
    (max_pages : option Z) (n : nat) (s : state) :
  (n < fuel)%nat ->
  (forall i, (i < n)%nat ->
     exists soup, turn_of www max_pages (1 + Z.of_nat i) = Goes soup) ->
  reached_limit max_pages (1 + Z.of_nat n) = None ->
  fetch_listing www (1 + Z.of_nat n) = NotFound \/
  fetch_listing www (1 + Z.of_nat n) = NoItems ->
  let run := scrape_books www fuel is_save max_pages s in
  returned run = Ok (pages_books www 1 n) /\
  exists before why,
    (why = PageNotFound (1 + Z.of_nat n) \/ why = NoBooksFound (1 + Z.of_nat n)) /\
    observed run =
    before ++ [EGet (catalog_url_of (1 + Z.of_nat n)); EPrint why] ++
    closing_events is_save (pages_books www 1 n).
Proof.
  intros Hfuel Hgo Hlimit Hend. simpl.
  assert (exists why,
             (why = PageNotFound (1 + Z.of_nat n) \/
              why = NoBooksFound (1 + Z.of_nat n)) /\
             turn_of www max_pages (1 + Z.of_nat n) = Stops why)
    as (why & Hwhy & Hstop).
  { unfold turn_of. rewrite Hlimit. destruct Hend as [-> | ->]; eauto. }
  rewrite (scrape_books_pages www fuel is_save max_pages n why s Hfuel Hgo Hstop).
  split; [reflexivity|].
  exists (trace s ++ [EPrint Starting] ++ pages_trace www 1 n ++
          [EPrint (Processing (1 + Z.of_nat n)
                     (catalog_url_of (1 + Z.of_nat n)))]), why.
  split; [exact Hwhy|].
  unfold observed, stop_events, listing_events. rewrite Hlimit.
  generalize (pages_trace www 1 n)
             (closing_events is_save (pages_books www 1 n)).
  generalize (1 + Z.of_nat n). intros page_num pages closing.
  repeat (simpl; rewrite <- ?(assoc_L (++))). reflexivity.
Qed.

Lemma end_of_catalog_stops_crawl_witness :
  let run := scrape_books www_linkless_page 3 false None initial in
  returned run = Ok (pages_books www_linkless_page 1 2) /\
  exists before why,
    (why = PageNotFound (1 + Z.of_nat 2) \/ why = NoBooksFound (1 + Z.of_nat 2)) /\
    observed run =
    before ++ [EGet (catalog_url_of (1 + Z.of_nat 2)); EPrint why] ++
    closing_events false (pages_books www_linkless_page 1 2).
Proof.
  apply (end_of_catalog_stops_crawl www_linkless_page 3 false None 2 initial).
  - lia.
  - intros i Hi. assert (i = 0 \/ i = 1)%nat as [-> | ->] by lia;
      eexists; reflexivity.
  - reflexivity.
  - right. reflexivity.
Defined.

(** X11: the end of the catalog is decided by item containers, not by usable
    links.  A listing page that has containers, none of which yields a
    reference, adds nothing, fetches no detail page, and the loop goes on to
    the next page. *)
Theorem linkless_page_goes_on (www : web) (max_pages : option Z)
    (page_num status : Z) (nodes : list node) (s : state) :
  reached_limit max_pages page_num = None ->
  www (catalog_url_of page_num) = page status nodes ->
  200 <= status < 300 ->
  (0 < length (item_containers (root nodes)))%nat ->
  extract_refs (root nodes) = [] ->
  loop_body www max_pages page_num s =
  (Ok Continue,
   State (trace s ++
            [EPrint (Processing page_num (catalog_url_of page_num));
             EGet (catalog_url_of page_num)])
         (books_list s)).
Proof.
  intros Hlimit Hwww Hstatus Hitems Hrefs.
  rewrite loop_body_run.
  rewrite (turn_of_go www max_pages page_num (root nodes) Hlimit
             (fetch_listing_ok _ _ _ _ Hwww Hstatus Hitems)).
  unfold page_events, page_items, listing_events. rewrite Hrefs. simpl.
  rewrite !(right_id_L [] (++)). reflexivity.
Qed.

Lemma linkless_page_goes_on_witness :
  loop_body www_linkless_page None 2 initial =
  (Ok Continue,
   State [EPrint (Processing 2 (catalog_url_of 2)); EGet (catalog_url_of 2)]
         []).
Proof.
  apply (linkless_page_goes_on www_linkless_page None 2 200
           [bare_container] initial);
    try reflexivity; try (vm_compute; lia); simpl; lia.
Defined.

(** ** [get_book_data] as a whole *)


(** ** Stripped text *)

Lemma append_cons (a : ascii) (s t : string) :
  String a s +:+ t = String a (s +:+ t).
Proof. reflexivity. Qed.

Lemma append_nil_r (s : string) : s +:+ "" = s.
Proof.
  induction s as [|a s IH]; [reflexivity|]. by rewrite append_cons, IH.
Qed.

Lemma append_assoc (s t u : string) : (s +:+ t) +:+ u = s +:+ (t +:+ u).
Proof.
  induction s as [|a s IH]; [reflexivity|]. by rewrite !append_cons, IH.
Qed.

Lemma rev_app_append (s t u : string) :
  String.rev_app s t +:+ u = String.rev_app s (t +:+ u).
Proof.
  revert t. induction s as [|a s IH]; intros t; [reflexivity|].
  change (String.rev_app s (String a t) +:+ u =
          String.rev_app s (String a (t +:+ u))).
  rewrite IH. reflexivity.
Qed.

Lemma rev_cons (a : ascii) (s : string) :
  String.rev (String a s) = String.rev s +:+ String a "".
Proof.
  unfold String.rev.
  change (String.rev_app (String a s) "") with (String.rev_app s (String a "")).
  by rewrite rev_app_append.
Qed.

Lemma rev_append (s t : string) :
  String.rev (s +:+ t) = String.rev t +:+ String.rev s.
Proof.
  induction s as [|a s IH].
  - change (String.rev t = String.rev t +:+ ""). by rewrite append_nil_r.
  - rewrite append_cons, !rev_cons, IH, append_assoc. reflexivity.
Qed.

Lemma rev_involutive (s : string) : String.rev (String.rev s) = s.
Proof.
  induction s as [|a s IH]; [reflexivity|].
  rewrite rev_cons, rev_append, IH. reflexivity.
Qed.

Lemma leads_drop_leading (p1 : ascii -> bool) (p2 : ascii -> ascii -> bool)
    (p3 : ascii -> ascii -> ascii -> bool) (n : nat) :
  forall s : string,
    (String.length s <= n)%nat ->
    Str.leads p1 p2 p3 (Str.drop_leading p1 p2 p3 s) = false.
Proof.
  induction n as [|n IH]; intros s Hlen.
  - destruct s; [reflexivity|simpl in Hlen; lia].
  - destruct s as [|a s1]; [reflexivity|]. simpl in Hlen.
    simpl Str.drop_leading. destruct (p1 a) eqn:H1; [apply IH; lia|].
    destruct s1 as [|b s2]; [simpl; by rewrite H1|]. simpl in Hlen.
    destruct (p2 a b) eqn:H2; [apply IH; lia|].
    destruct s2 as [|c s3]; [simpl; by rewrite H1, H2|]. simpl in Hlen.
    destruct (p3 a b c) eqn:H3; [apply IH; lia|].
    simpl. by rewrite H1, H2, H3.
Qed.

Lemma drop_leading_suffix (p1 : ascii -> bool) (p2 : ascii -> ascii -> bool)
    (p3 : ascii -> ascii -> ascii -> bool) (n : nat) :
  forall s : string,
    (String.length s <= n)%nat ->
    exists u, s = u +:+ Str.drop_leading p1 p2 p3 s.
Proof.
  induction n as [|n IH]; intros s Hlen.
  - destruct s; [by exists ""|simpl in Hlen; lia].
  - destruct s as [|a s1]; [by exists ""|]. simpl in Hlen.
    simpl Str.drop_leading. destruct (p1 a).
    { destruct (IH s1 ltac:(lia)) as [u Hu].
      exists (String a u). rewrite append_cons. by f_equal. }
    destruct s1 as [|b s2]; [by exists ""|]. simpl in Hlen.
    destruct (p2 a b).
    { destruct (IH s2 ltac:(lia)) as [u Hu].
      exists (String a (String b u)). rewrite !append_cons. by do 2 f_equal. }
    destruct s2 as [|c s3]; [by exists ""|]. simpl in Hlen.
    destruct (p3 a b c); [|by exists ""].
    destruct (IH s3 ltac:(lia)) as [u Hu].
    exists (String a (String b (String c u))).
    rewrite !append_cons. by do 3 f_equal.
Qed.

Lemma leads_append (p1 : ascii -> bool) (p2 : ascii -> ascii -> bool)
    (p3 : ascii -> ascii -> ascii -> bool) (r u : string) :
  Str.leads p1 p2 p3 r = true -> Str.leads p1 p2 p3 (r +:+ u) = true.
Proof.
  destruct r as [|a r1]; [discriminate|]. rewrite append_cons. simpl.
  destruct (p1 a); [reflexivity|]. simpl.
  destruct r1 as [|b r2]; [discriminate|]. rewrite append_cons.
  destruct (p2 a b); [reflexivity|]. simpl.
  destruct r2 as [|c r3]; [discriminate|]. rewrite append_cons.
  by intros ->.
Qed.

Lemma strip_trimmed (s : string) : trimmed (Str.strip s).
Proof.
  unfold trimmed, Str.strip, Str.rstrip, Str.ends_with_space.
  set (t := Str.lstrip s).
  set (D := Str.drop_leading Str.isspace1 (fun b a => Str.isspace2 a b)
              (fun c b a => Str.isspace3 a b c) (String.rev t)).
  split.
  - destruct (Str.starts_with_space (String.rev D)) eqn:Hstarts;
      [|reflexivity].
    destruct (drop_leading_suffix Str.isspace1 (fun b a => Str.isspace2 a b)
                (fun c b a => Str.isspace3 a b c) _ (String.rev t)
                (Nat.le_refl _)) as [u Hu].
    fold D in Hu.
    assert (Ht : t = String.rev D +:+ String.rev u).
    { rewrite <- rev_append, <- Hu, rev_involutive. reflexivity. }
    pose proof (leads_drop_leading Str.isspace1 Str.isspace2 Str.isspace3
                  _ s (Nat.le_refl _)) as Hlstrip.
    fold Str.lstrip in Hlstrip. fold t in Hlstrip.
    rewrite Ht in Hlstrip. unfold Str.starts_with_space in Hstarts.
    rewrite (leads_append _ _ _ _ _ Hstarts) in Hlstrip. discriminate.
  - rewrite rev_involutive. unfold D.
    exact (leads_drop_leading _ _ _ _ _ (Nat.le_refl _)).
Qed.

Lemma text_or_None_trimmed (tag : option element) :
  trimmed_or_None (text_or_None tag).
Proof. destruct tag; [apply strip_trimmed|exact I]. Qed.

Lemma row_pair_trimmed (row : element) (k v : string) :
  row_pair row = Some (k, v) -> trimmed k /\ trimmed v.
Proof.
  unfold row_pair.
  destruct (find (ByName "th") row), (find (ByName "td") row);
    try discriminate.
  intros [= <- <-]. split; apply strip_trimmed.
Qed.

Lemma product_info_spec_from_row (rows : list element) (k v : string) :
  product_info_spec rows !! k = Some v ->
  exists row, row ∈ rows /\ row_pair row = Some (k, v).
Proof.
  unfold product_info_spec. intros Hlookup.
  apply elem_of_list_to_map_2 in Hlookup.
  rewrite elem_of_reverse in Hlookup.
  by apply list_elem_of_omap in Hlookup.
Qed.

(** X13: the texts of a record carry no surrounding whitespace.  The title,
    price, availability and description are [None] or a string whose first
    and last characters are not whitespace, in the sense of [str.isspace]
    (the ASCII blanks and separators, U+0085, U+00A0, U+1680,
    U+2000..U+200A, U+2028, U+2029, U+202F, U+205F, U+3000), and so are all
    keys and values of product_info.  (The rating, a class token, is stored
    as it is.) *)
Theorem extracted_texts_are_trimmed (soup : element) (s : state) :
  exists book_data : book,
    get_book_data_body soup s = (Ok book_data, s) /\
    (forall field : string,
        field ∈ ["title"; "price"; "availability"; "description"] ->
        exists v, book_data !! field = Some v /\ trimmed_or_None v) /\
    (exists product_info,
        book_data !! "product_info" = Some (PDict product_info) /\
        forall k v, product_info !! k = Some v -> trimmed k /\ trimmed v).
Proof.
  exists (extract_item soup). split; [apply get_book_data_body_extract|].
  unfold extract_item. split.
  - intros field Hfield.
    repeat (apply elem_of_cons in Hfield as [->|Hfield]);
      [..|by apply elem_of_nil in Hfield];
      eexists; (split; [by simplify_map_eq|]);
      try apply text_or_None_trimmed.
    unfold description_of.
    destruct (find _ soup); [apply text_or_None_trimmed|exact I].
  - eexists. split; [by simplify_map_eq|].
    intros k v. unfold product_info_of.
    destruct (find _ soup) as [table|]; [|by rewrite lookup_empty].
    intros Hlookup.
    apply product_info_spec_from_row in Hlookup as (row & _ & Hrow).
    by eapply row_pair_trimmed.
Qed.

Lemma size_list_to_map_le (l : list (string * string)) :
  (size (list_to_map l : gmap string string) <= length l)%nat.
Proof.
  induction l as [|[k v] l IH]; simpl.
  - by rewrite map_size_empty.
  - rewrite map_size_insert.
    destruct (list_to_map l !! k); simpl; lia.
Qed.

(** X14: product_info holds nothing but what the table's rows say, and no
    more entries than rows.  Every entry is the stripped header and data
    text of some row of the first "table table-striped" table that has both
    cells; without such a table the mapping is empty. *)
Theorem product_info_from_rows (soup : element) (s : state) :
  exists (book_data : book) (product_info : gmap string string),
    get_book_data_body soup s = (Ok book_data, s) /\
    book_data !! "product_info" = Some (PDict product_info) /\
    let rows :=
      match find (ByClass "table" "table table-striped") soup with
      | Some table => find_all (ByName "tr") table
      | None => []
      end in
    (size product_info <= length rows)%nat /\
    (forall k v,
        product_info !! k = Some v ->
        exists row header data,
          row ∈ rows /\
          find (ByName "th") row = Some header /\
          find (ByName "td") row = Some data /\
          k = Str.strip (text header) /\ v = Str.strip (text data)).
Proof.
  exists (extract_item soup), (product_info_of soup).
  split; [apply get_book_data_body_extract|].
  split; [unfold extract_item; by simplify_map_eq|].
  unfold product_info_of.
  destruct (find (ByClass "table" "table table-striped") soup) as [table|];
    simpl.
  - split.
    + unfold product_info_spec.
      etrans; [apply size_list_to_map_le|].
      rewrite length_reverse. apply length_omap_le.
    + intros k v Hlookup.
      apply product_info_spec_from_row in Hlookup as (row & Hin & Hrow).
      unfold row_pair in Hrow.
      destruct (find (ByName "th") row) as [header|] eqn:Hth; [|discriminate].
      destruct (find (ByName "td") row) as [data|] eqn:Htd; [|discriminate].
      injection Hrow as <- <-. exists row, header, data. by repeat split.
  - split; [by rewrite map_size_empty|].
    intros k v. by rewrite lookup_empty.
Qed.
